(** * aw-watcher-enhanced: the browser extension's background script

    A shallow embedding of [browser-extension/src/background.js]: the
    capture -> filter -> classify -> dispatch pipeline, the connection flag
    and the message handler, followed by the properties of the
    specification that were checked against it.

    Conventions of the embedding.
    - JavaScript strings are [string]; [String.prototype.includes],
      [startsWith], [toLowerCase], [split] and [replace] are written out in
      module [JS].  [toLowerCase] is the ASCII one: hostnames handed out by
      the URL parser are ASCII.
    - [undefined] / [null] are [None].
    - An [async] function is cut at its [await]s: the part that runs up to
      the [await] returns the request it issues, the part that runs after
      it takes the outcome of that request.
    - [new URL(...)] and [new RegExp(...)] belong to the host; they are
      the two fields of class [Host], over which the script is stated. *)

From Stdlib Require Import String Ascii List Bool ZArith NArith Lia.
Import ListNotations.
Open Scope string_scope.
Open Scope bool_scope.

(** ** JavaScript string primitives *)

Module JS.

(** [s.startsWith(p)] *)
Definition startsWith (s p : string) : bool := String.prefix p s.

(** [s.includes(sub)]: [sub] starts at some position of [s]. *)
Fixpoint includes (s sub : string) : bool :=
  startsWith s sub ||
  match s with
  | EmptyString => false
  | String _ s' => includes s' sub
  end.

Definition lower_ascii (c : ascii) : ascii :=
  let n := N_of_ascii c in
  if (65 <=? n)%N && (n <=? 90)%N then ascii_of_N (n + 32) else c.

(** [s.toLowerCase()] on ASCII text. *)
Fixpoint toLowerCase (s : string) : string :=
  match s with
  | EmptyString => EmptyString
  | String c s' => String (lower_ascii c) (toLowerCase s')
  end.

(** [s.split(sep)] for a one-character separator: the pieces between the
    separators, in order; the empty string gives one empty piece. *)
Fixpoint split (sep : ascii) (s : string) : list string :=
  match s with
  | EmptyString => [EmptyString]
  | String c s' =>
      if Ascii.eqb c sep then EmptyString :: split sep s'
      else match split sep s' with
           | [] => [String c EmptyString]
           | piece :: rest => String c piece :: rest
           end
  end.

(** [s.replace(c, '')] with a one-character string pattern: only the
    first occurrence goes. *)
Fixpoint remove_first (c : ascii) (s : string) : string :=
  match s with
  | EmptyString => EmptyString
  | String d s' => if Ascii.eqb d c then s' else String d (remove_first c s')
  end.

(** [x || dflt] on a possibly missing string: the empty string is falsy. *)
Definition or_string (x : option string) (dflt : string) : string :=
  match x with
  | Some (String c s) => String c s
  | _ => dflt
  end.

(** [!x] on a possibly missing string. *)
Definition falsy (x : option string) : bool :=
  match x with
  | Some (String _ _) => false
  | _ => true
  end.

End JS.

(** ** The categorizer *)

(** [categorizeDomain(hostname, path)]: the chain of [if]s of the source,
    in the source's order; [None] is the final [return null]. *)
Definition categorizeDomain (hostname path : string) : option string :=
  let domain := JS.toLowerCase hostname in
  (* Development *)
  if JS.includes domain "github.com" then
    if JS.includes path "/pull/" then Some "Work/Development/Code Review"
    else if JS.includes path "/issues/" then Some "Work/Development/Issues"
    else Some "Work/Development"
  else if JS.includes domain "gitlab.com" || JS.includes domain "bitbucket.org" then
    Some "Work/Development"
  else if JS.includes domain "stackoverflow.com" || JS.includes domain "stackexchange.com" then
    Some "Work/Development/Research"
  (* Documentation *)
  else if JS.includes domain "docs." || JS.includes domain "documentation." ||
          JS.includes domain "developer." || JS.includes domain "devdocs.io" then
    Some "Work/Development/Documentation"
  (* Communication *)
  else if JS.includes domain "mail.google.com" || JS.includes domain "outlook." ||
          JS.includes domain "mail.yahoo.com" then
    Some "Work/Communication/Email"
  else if JS.includes domain "slack.com" || JS.includes domain "discord.com" ||
          JS.includes domain "teams.microsoft.com" then
    Some "Work/Communication/Chat"
  else if JS.includes domain "meet.google.com" || JS.includes domain "zoom.us" ||
          JS.includes domain "webex.com" then
    Some "Work/Communication/Meetings"
  (* Project Management *)
  else if JS.includes domain "jira" || JS.includes domain "asana.com" ||
          JS.includes domain "trello.com" || JS.includes domain "monday.com" ||
          JS.includes domain "linear.app" || JS.includes domain "notion.so" then
    Some "Work/Project Management"
  (* Google Workspace *)
  else if JS.includes domain "docs.google.com" then
    if JS.includes path "/document/" then Some "Work/Documentation/Writing"
    else if JS.includes path "/spreadsheets/" then Some "Work/Data/Spreadsheets"
    else if JS.includes path "/presentation/" then Some "Work/Presentation"
    else Some "Work/Documentation"
  else if JS.includes domain "drive.google.com" then
    Some "Work/Files"
  (* Design *)
  else if JS.includes domain "figma.com" || JS.includes domain "canva.com" ||
          JS.includes domain "sketch.com" then
    Some "Work/Design"
  (* Social Media *)
  else if JS.includes domain "twitter.com" || JS.includes domain "x.com" ||
          JS.includes domain "facebook.com" || JS.includes domain "instagram.com" ||
          JS.includes domain "linkedin.com" || JS.includes domain "reddit.com" then
    Some "Personal/Social Media"
  (* Entertainment *)
  else if JS.includes domain "youtube.com" || JS.includes domain "netflix.com" ||
          JS.includes domain "twitch.tv" || JS.includes domain "spotify.com" ||
          JS.includes domain "hulu.com" || JS.includes domain "disneyplus.com" then
    Some "Personal/Entertainment"
  (* Shopping *)
  else if JS.includes domain "amazon." || JS.includes domain "ebay." ||
          JS.includes domain "etsy.com" || JS.includes domain "shopify.com" then
    Some "Personal/Shopping"
  (* News *)
  else if JS.includes domain "news." || JS.includes domain "cnn.com" ||
          JS.includes domain "bbc." || JS.includes domain "nytimes.com" ||
          JS.includes domain "theguardian.com" then
    Some "Personal/News"
  (* Learning *)
  else if JS.includes domain "udemy.com" || JS.includes domain "coursera.org" ||
          JS.includes domain "edx.org" || JS.includes domain "linkedin.com/learning" ||
          JS.includes domain "pluralsight.com" then
    Some "Research/Learning"
  else None.

(** ** Data model *)

(** The fields of a [URL] object that the script reads. *)
Module URL.
Record t := { protocol : string; hostname : string; pathname : string }.
End URL.

(** The host's parsers.
    - [URL_parse s] is [new URL(s)]; [None] when the constructor throws.
    - [RegExp_test p s] is [new RegExp(p, 'i').test(s)]; [None] when the
      constructor throws because [p] does not compile. *)
Class Host := {
  URL_parse : string -> option URL.t;
  RegExp_test : string -> string -> option bool
}.

(** The fields of a [chrome.tabs.Tab] that the script reads. *)
Module Tab.
Record t := {
  url : option string;
  title : option string;
  incognito : bool;
  audible : option bool;
  active : bool
}.
End Tab.

(** The [data] object built by [processTabData]. *)
Module Data.
Record t := {
  url : string;
  title : string;
  domain : string;
  incognito : bool;
  tabCount : nat;
  audible : bool;
  protocol : string;
  path : string;
  category : option string
}.

Definition with_tabCount (n : nat) (d : t) : t :=
  {| url := url d; title := title d; domain := domain d;
     incognito := incognito d; tabCount := n; audible := audible d;
     protocol := protocol d; path := path d; category := category d |}.
End Data.

(** [CONFIG].  [pollInterval] is in milliseconds, [pulsetime] in seconds. *)
Record Config := {
  serverUrl : string;
  pollInterval : Z;
  pulsetime : Z;
  bucketId : option string;
  enabled : bool;
  trackUrls : bool;
  trackTitles : bool;
  excludePatterns : list string;
  excludeDomains : list string;
  incognitoTracking : bool
}.

Definition CONFIG_initial : Config :=
  {| serverUrl := "http://localhost:5600";
     pollInterval := 5000;
     pulsetime := 6;
     bucketId := None;
     enabled := true;
     trackUrls := true;
     trackTitles := true;
     excludePatterns := [];
     excludeDomains := ["localhost"; "127.0.0.1"];
     incognitoTracking := false |}.

(** A settings object: the keys that [chrome.storage.sync] holds for the
    background script; a key that is absent is [None]. *)
Module Settings.
Record t := {
  serverUrl : option string;
  enabled : option bool;
  trackUrls : option bool;
  trackTitles : option bool;
  excludePatterns : option (list string);
  excludeDomains : option (list string);
  incognitoTracking : option bool
}.

Definition empty : t :=
  {| serverUrl := None; enabled := None; trackUrls := None;
     trackTitles := None; excludePatterns := None; excludeDomains := None;
     incognitoTracking := None |}.

(** [{ enabled: b }] *)
Definition only_enabled (b : bool) : t :=
  {| serverUrl := None; enabled := Some b; trackUrls := None;
     trackTitles := None; excludePatterns := None; excludeDomains := None;
     incognitoTracking := None |}.
End Settings.

Definition or_else {A : Type} (x : option A) (dflt : A) : A :=
  match x with Some a => a | None => dflt end.

(** [Object.assign(CONFIG, settings)] *)
Definition assign (c : Config) (x : Settings.t) : Config :=
  {| serverUrl := or_else (Settings.serverUrl x) (serverUrl c);
     pollInterval := pollInterval c;
     pulsetime := pulsetime c;
     bucketId := bucketId c;
     enabled := or_else (Settings.enabled x) (enabled c);
     trackUrls := or_else (Settings.trackUrls x) (trackUrls c);
     trackTitles := or_else (Settings.trackTitles x) (trackTitles c);
     excludePatterns := or_else (Settings.excludePatterns x) (excludePatterns c);
     excludeDomains := or_else (Settings.excludeDomains x) (excludeDomains c);
     incognitoTracking := or_else (Settings.incognitoTracking x) (incognitoTracking c) |}.

Definition set_enabled (b : bool) (c : Config) : Config :=
  assign c (Settings.only_enabled b).

Definition set_bucketId (b : option string) (c : Config) : Config :=
  {| serverUrl := serverUrl c; pollInterval := pollInterval c;
     pulsetime := pulsetime c; bucketId := b; enabled := enabled c;
     trackUrls := trackUrls c; trackTitles := trackTitles c;
     excludePatterns := excludePatterns c; excludeDomains := excludeDomains c;
     incognitoTracking := incognitoTracking c |}.

(** The script's top-level variables. *)
Record State := {
  CONFIG : Config;
  currentTab : option Tab.t;
  lastHeartbeat : option Z;
  isConnected : bool
}.

Definition State_initial : State :=
  {| CONFIG := CONFIG_initial; currentTab := None; lastHeartbeat := None;
     isConnected := false |}.

Definition with_CONFIG (c : Config) (s : State) : State :=
  {| CONFIG := c; currentTab := currentTab s;
     lastHeartbeat := lastHeartbeat s; isConnected := isConnected s |}.

Definition with_currentTab (t : option Tab.t) (s : State) : State :=
  {| CONFIG := CONFIG s; currentTab := t;
     lastHeartbeat := lastHeartbeat s; isConnected := isConnected s |}.

Definition with_lastHeartbeat (h : option Z) (s : State) : State :=
  {| CONFIG := CONFIG s; currentTab := currentTab s;
     lastHeartbeat := h; isConnected := isConnected s |}.

Definition with_isConnected (b : bool) (s : State) : State :=
  {| CONFIG := CONFIG s; currentTab := currentTab s;
     lastHeartbeat := lastHeartbeat s; isConnected := b |}.

(** The connection states of the specification.  The script keeps the
    single flag [isConnected]; this is the state the flag stands for. *)
Inductive ConnectionState := Disconnected | Checking | Connected.

Definition connectionState (s : State) : ConnectionState :=
  if isConnected s then Connected else Disconnected.

(** ** Requests *)

(** Body of the bucket-creation request; a field whose value is
    [undefined] is left out by [JSON.stringify]. *)
Record BucketBody := {
  client : string;
  type : string;
  hostname : option string
}.

(** Body of a heartbeat request. *)
Record HeartbeatEvent := {
  timestamp : Z;
  duration : Z;
  data : Data.t
}.

(** The calls of [fetch], by endpoint.
    - [GetInfo server]: [GET {server}/api/0/info]
    - [PostBucket server bucket body]: [POST {server}/api/0/buckets/{bucket}]
    - [PostHeartbeat server bucket pulsetime event]:
      [POST {server}/api/0/buckets/{bucket}/heartbeat?pulsetime={pulsetime}] *)
Inductive Request :=
| GetInfo (server : string)
| PostBucket (server bucket : string) (body : BucketBody)
| PostHeartbeat (server : string) (bucket : option string) (pulse : Z)
    (event : HeartbeatEvent).

(** What an awaited [fetch] comes back with: a rejection, or a response
    with its status. *)
Inductive FetchResult :=
| NetworkError
| Response (status : Z).

(** [response.ok] *)
Definition response_ok (status : Z) : bool :=
  (200 <=? status)%Z && (status <=? 299)%Z.

(** What [GET /api/0/info] comes back with, as [getHostname] sees it: the
    fetch or the JSON decoding fails, or there is an object, with or
    without a [hostname]. *)
Inductive InfoResult :=
| InfoFailed
| Info (hostname : option string).

(** ** The pipeline *)

Section Background.

Context {host : Host}.

(** [getHostname], after its [await]s. *)
Definition getHostname (r : InfoResult) : string :=
  match r with
  | InfoFailed => "unknown"
  | Info h => JS.or_string h "unknown"
  end.

(** The two lines of [init] that name the bucket. *)
Definition init_bucketId (r : InfoResult) (s : State) : State :=
  let hostname := getHostname r in
  with_CONFIG
    (set_bucketId (Some ("aw-watcher-web-enhanced_" ++ hostname)) (CONFIG s)) s.

(** [createBucket], up to its [await]: the arguments of [fetch] are
    evaluated first, and [CONFIG.bucketId.split] throws on [null], which
    the [catch] turns into [isConnected = false] with no request made.
    Otherwise the request goes out and nothing is assigned yet. *)
Definition createBucket (s : State) : State * option Request :=
  match bucketId (CONFIG s) with
  | None => (with_isConnected false s, None)
  | Some b =>
      (s, Some (PostBucket (serverUrl (CONFIG s)) b
                  {| client := "aw-watcher-web-enhanced";
                     type := "web.tab.current";
                     hostname := nth_error (JS.split "_" b) 1 |}))
  end.

(** [createBucket], after its [await]. *)
Definition createBucket_resolved (r : FetchResult) (s : State) : State :=
  match r with
  | Response status =>
      if response_ok status || (status =? 304)%Z
      then with_isConnected true s
      else with_isConnected false s
  | NetworkError => with_isConnected false s
  end.

(** [sendHeartbeat], up to its [await]; [now] is the clock. *)
Definition sendHeartbeat (now : Z) (d : Data.t) (s : State)
  : State * option Request :=
  if negb (enabled (CONFIG s)) || negb (isConnected s) then (s, None)
  else
    (s, Some (PostHeartbeat (serverUrl (CONFIG s)) (bucketId (CONFIG s))
                (pulsetime (CONFIG s))
                {| timestamp := now; duration := 0; data := d |})).

(** [sendHeartbeat], after its [await]; the flag says whether
    [setTimeout(createBucket, 10000)] was called. *)
Definition sendHeartbeat_resolved (r : FetchResult) (now : Z) (s : State)
  : State * bool :=
  match r with
  | Response status =>
      if response_ok status
      then (with_isConnected true (with_lastHeartbeat (Some now) s), false)
      else (with_isConnected false s, true)
  | NetworkError => (with_isConnected false s, true)
  end.

(** The test on [tab.url] in [getCurrentTabData]. *)
Definition internal_page (u : option string) : bool :=
  match u with
  | Some (String c r) =>
      let u := String c r in
      JS.startsWith u "chrome://" || JS.startsWith u "chrome-extension://" ||
      JS.startsWith u "about:" || JS.startsWith u "moz-extension://"
  | _ => true
  end.

(** [getCurrentTabData]: [tabs] is what the query for the active tab of
    the current window gives. *)
Definition getCurrentTabData (c : Config) (tabs : list Tab.t) : option Tab.t :=
  match tabs with
  | [] => None
  | tab :: _ =>
      if Tab.incognito tab && negb (incognitoTracking c) then None
      else if internal_page (Tab.url tab) then None
      else Some tab
  end.

(** The callback given to [excludePatterns.some]. *)
Definition pattern_matches (u p : string) : bool :=
  match RegExp_test p u with
  | Some b => b
  | None => false
  end.

(** A pattern whose source does not compile: the constructor throws
    whatever the URL to test is. *)
Definition malformed (p : string) : Prop :=
  forall u, RegExp_test p u = None.

(** [processTabData]; every exception inside the [try] ends in
    [return null]. *)
Definition processTabData (c : Config) (tab : Tab.t) : option Data.t :=
  match Tab.url tab with
  | Some (String ch rest) =>
      let tab_url := String ch rest in
      match URL_parse tab_url with
      | None => None
      | Some url =>
          if existsb (fun d => JS.includes (URL.hostname url) d) (excludeDomains c)
          then None
          else if existsb (pattern_matches tab_url) (excludePatterns c)
          then None
          else
            Some {| Data.url := if trackUrls c then tab_url else "[redacted]";
                    Data.title := if trackTitles c
                                  then JS.or_string (Tab.title tab) ""
                                  else "[redacted]";
                    Data.domain := URL.hostname url;
                    Data.incognito := Tab.incognito tab;
                    Data.tabCount := 0;
                    Data.audible := or_else (Tab.audible tab) false;
                    Data.protocol := JS.remove_first ":" (URL.protocol url);
                    Data.path := URL.pathname url;
                    Data.category :=
                      categorizeDomain (URL.hostname url) (URL.pathname url) |}
      end
  | _ => None
  end.

(** [heartbeat], from the answer to the first query up to the second
    query: [Some data] when the count of all tabs has been asked for,
    with [data] waiting for it. *)
Definition heartbeat (tabs : list Tab.t) (s : State) : State * option Data.t :=
  match getCurrentTabData (CONFIG s) tabs with
  | None => (s, None)
  | Some tab =>
      match processTabData (CONFIG s) tab with
      | None => (s, None)
      | Some d => (with_currentTab (Some tab) s, Some d)
      end
  end.

(** The callback of the second query of [heartbeat]. *)
Definition heartbeat_counted (now : Z) (tabs : list Tab.t) (d : Data.t)
    (s : State) : State * option Request :=
  sendHeartbeat now (Data.with_tabCount (List.length tabs) d) s.

End Background.

(** ** Messages *)

(** The messages of the popup and of the options page, by [message.type]. *)
Inductive Message :=
| GetStatus
| SetEnabled (enabled : bool)
| GetSettings
| SaveSettings (settings : Settings.t)
| TestConnection
| OtherMessage (type : string).

(** The arguments of [sendResponse]. *)
Inductive Reply :=
| StatusReply (enabled connected : bool) (lastHeartbeat : option Z)
    (currentUrl : option string) (bucketId : option string)
| SuccessReply
| SettingsReply (config : Config)
| ConnectedReply (connected : bool)
| ErrorReply (error : string).

(** ** The script as a transition system *)

(** What leaves the script. *)
Inductive Output :=
| Fetch (r : Request)
| StorageSet (x : Settings.t)
| SendResponse (r : Reply).

(** Who called [createBucket]. *)
Inductive Origin := FromInit | FromTest | FromRetry.

(** How far [init] has come: waiting for the stored settings, waiting for
    the server's hostname, or past both. *)
Inductive Phase := Loading | Naming | Named.

(** The script between two tasks of the event loop: its variables, what it
    has emitted (latest first), and what it is waiting for. *)
Record System := {
  st : State;
  phase : Phase;
  out : list Output;
  cycles : nat;               (* calls of [heartbeat] waiting for the active tab *)
  counting : list Data.t;     (* calls of [heartbeat] waiting for the tab count *)
  beating : nat;              (* heartbeat requests in flight *)
  ensuring : list Origin;     (* bucket requests in flight *)
  retries : nat               (* pending [setTimeout(createBucket, 10000)] *)
}.

Definition System_initial : System :=
  {| st := State_initial; phase := Loading; out := []; cycles := 0;
     counting := []; beating := 0; ensuring := []; retries := 0 |}.

(** What the browser and the network do to the script. *)
Inductive Event :=
| SettingsLoaded (items : Settings.t)
| InfoResolved (r : InfoResult)
| Alarm (name : string)
| TabActivated
| TabUpdated (changed_url changed_title : option string) (tab : Tab.t)
| FocusChanged (windowId : Z)
| ActiveTabQueried (tabs : list Tab.t)
| TabsCounted (i : nat) (tabs : list Tab.t) (now : Z)
| HeartbeatResolved (r : FetchResult) (now : Z)
| RetryTimer
| BucketResolved (i : nat) (r : FetchResult)
| Receive (m : Message).

(** [chrome.windows.WINDOW_ID_NONE] *)
Definition WINDOW_ID_NONE : Z := (-1)%Z.

(** Takes the [i]-th element out of a list. *)
Fixpoint take_out {A : Type} (i : nat) (l : list A) : option (A * list A) :=
  match l, i with
  | [], _ => None
  | x :: l', O => Some (x, l')
  | x :: l', S j =>
      match take_out j l' with
      | Some (y, r) => Some (y, x :: r)
      | None => None
      end
  end.

Definition opt_list {A : Type} (x : option A) : list A :=
  match x with Some a => [a] | None => [] end.

Section Transitions.

Context {host : Host}.

Definition with_st (s : State) (y : System) : System :=
  {| st := s; phase := phase y; out := out y; cycles := cycles y;
     counting := counting y; beating := beating y; ensuring := ensuring y;
     retries := retries y |}.

Definition emit (o : list Output) (y : System) : System :=
  {| st := st y; phase := phase y; out := o ++ out y; cycles := cycles y;
     counting := counting y; beating := beating y; ensuring := ensuring y;
     retries := retries y |}.

(** A call of [heartbeat]: it asks for the active tab and returns. *)
Definition call_heartbeat (y : System) : System :=
  {| st := st y; phase := phase y; out := out y; cycles := S (cycles y);
     counting := counting y; beating := beating y; ensuring := ensuring y;
     retries := retries y |}.

(** A call of [createBucket] by [who].  [testConnection] answers once
    the call has settled, which is at once when no request was made. *)
Definition call_createBucket (who : Origin) (y : System) : System :=
  match createBucket (st y) with
  | (s, Some req) =>
      {| st := s; phase := phase y; out := Fetch req :: out y;
         cycles := cycles y; counting := counting y; beating := beating y;
         ensuring := ensuring y ++ [who]; retries := retries y |}
  | (s, None) =>
      match who with
      | FromTest =>
          emit [SendResponse (ConnectedReply (isConnected s))] (with_st s y)
      | FromInit => call_heartbeat (with_st s y)
      | FromRetry => with_st s y
      end
  end.

(** [handleTabUpdated] *)
Definition handleTabUpdated (changed_url changed_title : option string)
    (tab : Tab.t) (y : System) : System :=
  if negb (JS.falsy changed_url) || negb (JS.falsy changed_title) then
    if Tab.active tab then call_heartbeat y else y
  else y.

(** [handleWindowFocusChanged] *)
Definition handleWindowFocusChanged (windowId : Z) (y : System) : System :=
  if negb (windowId =? WINDOW_ID_NONE)%Z then call_heartbeat y else y.

(** The listener of [chrome.runtime.onMessage]. *)
Definition onMessage (m : Message) (y : System) : System :=
  let s := st y in
  match m with
  | GetStatus =>
      emit [SendResponse
              (StatusReply (enabled (CONFIG s)) (isConnected s)
                 (lastHeartbeat s)
                 (match currentTab s with
                  | Some t => Tab.url t
                  | None => None
                  end)
                 (bucketId (CONFIG s)))] y
  | SetEnabled b =>
      let y1 := with_st (with_CONFIG (set_enabled b (CONFIG s)) s) y in
      let y2 := emit [StorageSet (Settings.only_enabled b)] y1 in
      let y3 := if b then call_heartbeat y2 else y2 in
      emit [SendResponse SuccessReply] y3
  | GetSettings => emit [SendResponse (SettingsReply (CONFIG s))] y
  | SaveSettings x =>
      let y1 := with_st (with_CONFIG (assign (CONFIG s) x) s) y in
      emit [SendResponse SuccessReply] (emit [StorageSet x] y1)
  | TestConnection => call_createBucket FromTest y
  | OtherMessage _ =>
      emit [SendResponse (ErrorReply "Unknown message type")] y
  end.

End Transitions.

Section Steps.

Context {host : Host}.

(** One task of the event loop; [None] when the event cannot happen in
    this state (nothing of that kind is being waited for). *)
Definition step (e : Event) (y : System) : option System :=
  match e with
  | SettingsLoaded items =>
      match phase y with
      | Loading =>
          let c := assign (CONFIG (st y)) items in
          Some {| st := with_CONFIG c (st y); phase := Naming;
                  out := Fetch (GetInfo (serverUrl c)) :: out y;
                  cycles := cycles y; counting := counting y;
                  beating := beating y; ensuring := ensuring y;
                  retries := retries y |}
      | _ => None
      end
  | InfoResolved r =>
      match phase y with
      | Naming =>
          Some (call_createBucket FromInit
                  {| st := init_bucketId r (st y); phase := Named;
                     out := out y; cycles := cycles y;
                     counting := counting y; beating := beating y;
                     ensuring := ensuring y; retries := retries y |})
      | _ => None
      end
  | Alarm name =>
      Some (if String.eqb name "heartbeat" then call_heartbeat y else y)
  | TabActivated => Some (call_heartbeat y)
  | TabUpdated cu ct tab => Some (handleTabUpdated cu ct tab y)
  | FocusChanged w => Some (handleWindowFocusChanged w y)
  | ActiveTabQueried tabs =>
      match cycles y with
      | O => None
      | S n =>
          let (s, d) := heartbeat tabs (st y) in
          Some {| st := s; phase := phase y; out := out y; cycles := n;
                  counting := counting y ++ opt_list d;
                  beating := beating y; ensuring := ensuring y;
                  retries := retries y |}
      end
  | TabsCounted i tabs now =>
      match take_out i (counting y) with
      | None => None
      | Some (d, rest) =>
          let (s, req) := heartbeat_counted now tabs d (st y) in
          Some {| st := s; phase := phase y;
                  out := map Fetch (opt_list req) ++ out y;
                  cycles := cycles y; counting := rest;
                  beating := List.length (opt_list req) + beating y;
                  ensuring := ensuring y; retries := retries y |}
      end
  | HeartbeatResolved r now =>
      match beating y with
      | O => None
      | S n =>
          let (s, again) := sendHeartbeat_resolved r now (st y) in
          Some {| st := s; phase := phase y; out := out y;
                  cycles := cycles y; counting := counting y; beating := n;
                  ensuring := ensuring y;
                  retries := (if again then 1 else 0) + retries y |}
      end
  | RetryTimer =>
      match retries y with
      | O => None
      | S n =>
          Some (call_createBucket FromRetry
                  {| st := st y; phase := phase y; out := out y;
                     cycles := cycles y; counting := counting y;
                     beating := beating y; ensuring := ensuring y;
                     retries := n |})
      end
  | BucketResolved i r =>
      match take_out i (ensuring y) with
      | None => None
      | Some (who, rest) =>
          let s := createBucket_resolved r (st y) in
          let y' := {| st := s; phase := phase y; out := out y;
                       cycles := cycles y; counting := counting y;
                       beating := beating y; ensuring := rest;
                       retries := retries y |} in
          Some match who with
               | FromTest =>
                   emit [SendResponse (ConnectedReply (isConnected s))] y'
               | FromInit => call_heartbeat y'
               | FromRetry => y'
               end
      end
  | Receive m => Some (onMessage m y)
  end.

(** A sequence of tasks. *)
Fixpoint run (es : list Event) (y : System) : option System :=
  match es with
  | [] => Some y
  | e :: es' =>
      match step e y with
      | Some y' => run es' y'
      | None => None
      end
  end.

(** The heartbeat requests among the outputs. *)
Definition is_heartbeat_post (o : Output) : bool :=
  match o with
  | Fetch (PostHeartbeat _ _ _ _) => true
  | _ => false
  end.

Definition heartbeat_posts (y : System) : list Output :=
  filter is_heartbeat_post (out y).

(** A bucket request that comes back with 2xx or 304. *)
Definition bucket_success (e : Event) : bool :=
  match e with
  | BucketResolved _ (Response status) =>
      response_ok status || (status =? 304)%Z
  | _ => false
  end.

End Steps.

(** ** A host to compute with

    A small stand-in for the browser's parsers, used where a statement is
    evaluated on concrete tabs.  It reads URLs of the shape
    [scheme://host/path] (the scheme and the host come out in lower case,
    the path starts at the first [/] after the host), and its patterns are
    plain text searched in the URL without regard to case, except that a
    pattern with an opening parenthesis and no closing one does not
    compile. *)
Module Sample.

Fixpoint until (c : ascii) (s : string) : string :=
  match s with
  | EmptyString => EmptyString
  | String d s' => if Ascii.eqb d c then EmptyString else String d (until c s')
  end.

Fixpoint from (c : ascii) (s : string) : string :=
  match s with
  | EmptyString => EmptyString
  | String d s' => if Ascii.eqb d c then s else from c s'
  end.

Definition parse (s : string) : option URL.t :=
  let scheme := until ":" s in
  let rest := from ":" s in
  if JS.startsWith rest "://" then
    let after := String.substring 3 (String.length rest - 3) rest in
    let h := until "/" after in
    match h with
    | EmptyString => None
    | _ =>
        Some {| URL.protocol := JS.toLowerCase scheme ++ ":";
                URL.hostname := JS.toLowerCase h;
                URL.pathname := match from "/" after with
                                | EmptyString => "/"
                                | p => p
                                end |}
    end
  else None.

Definition test (p s : string) : option bool :=
  if JS.includes p "(" && negb (JS.includes p ")") then None
  else Some (JS.includes (JS.toLowerCase s) (JS.toLowerCase p)).

Definition browser : Host := {| URL_parse := parse; RegExp_test := test |}.

End Sample.

(** ** Configurations that differ in one setting *)

Definition with_excludePatterns (ps : list string) (c : Config) : Config :=
  {| serverUrl := serverUrl c; pollInterval := pollInterval c;
     pulsetime := pulsetime c; bucketId := bucketId c; enabled := enabled c;
     trackUrls := trackUrls c; trackTitles := trackTitles c;
     excludePatterns := ps; excludeDomains := excludeDomains c;
     incognitoTracking := incognitoTracking c |}.

Definition with_tracking (urls titles : bool) (c : Config) : Config :=
  {| serverUrl := serverUrl c; pollInterval := pollInterval c;
     pulsetime := pulsetime c; bucketId := bucketId c; enabled := enabled c;
     trackUrls := urls; trackTitles := titles;
     excludePatterns := excludePatterns c; excludeDomains := excludeDomains c;
     incognitoTracking := incognitoTracking c |}.

(** The sub-rule of [categorizeDomain] for a host that contains
    [github.com], as the specification words it: the first path sub-rule
    that matches, else the base label. *)
Definition github_label (path : string) : string :=
  if JS.includes path "/pull/" then "Work/Development/Code Review"
  else if JS.includes path "/issues/" then "Work/Development/Issues"
  else "Work/Development".

(** ** The options page and the popup

    [options.js] and [popup.js] run in their own pages and talk to the
    background script through the messages above.  Their text handling
    is ASCII here, like [JS.toLowerCase]. *)

Module Text.

(** The ASCII characters that [String.prototype.trim] strips: tab, line
    feed, vertical tab, form feed, carriage return and space. *)
Definition is_space (c : ascii) : bool :=
  let n := N_of_ascii c in
  ((9 <=? n)%N && (n <=? 13)%N) || (n =? 32)%N.

Fixpoint trimStart (s : string) : string :=
  match s with
  | EmptyString => EmptyString
  | String c s' => if is_space c then trimStart s' else s
  end.

Fixpoint trimEnd (s : string) : string :=
  match s with
  | EmptyString => EmptyString
  | String c s' =>
      match trimEnd s' with
      | EmptyString => if is_space c then EmptyString else String c EmptyString
      | r => String c r
      end
  end.

(** [s.trim()] *)
Definition trim (s : string) : string := trimEnd (trimStart s).

(** The truth value of a string: only the empty string is falsy. *)
Definition truthy (s : string) : bool :=
  match s with EmptyString => false | String _ _ => true end.

(** [l.join(sep)] *)
Definition join (sep : string) (l : list string) : string :=
  String.concat sep l.

Definition newline : ascii := "010"%char.

End Text.

(** The form of the options page: the values of its inputs. *)
Module Form.
Record t := {
  serverUrl : string;
  trackUrls : bool;
  trackTitles : bool;
  incognitoTracking : bool;
  excludeDomains : string;
  excludePatterns : string;
  clientKeywords : string
}.
End Form.

Module Options.

(** [value.split('\n').map(s => s.trim()).filter(s => s)], the way
    [saveSettings] reads the two exclusion boxes. *)
Definition parse_lines (value : string) : list string :=
  filter Text.truthy (map Text.trim (JS.split Text.newline value)).

(** [items.excludeDomains.join('\n')], the way [loadSettings] fills them. *)
Definition show_lines (entries : list string) : string :=
  Text.join (String Text.newline EmptyString) entries.

(** The callback that [saveSettings] runs on each line of the client
    keywords: [Some (client, keywords)] is the assignment
    [keywordsObj[client] = keywords], [None] is a line that is skipped.
    The destructuring takes the first two pieces of the line cut at its
    colons; a piece that is not there is [undefined]. *)
Definition parse_keywords_line (line : string)
  : option (string * list string) :=
  let pieces := map Text.trim (JS.split ":" line) in
  match nth_error pieces 0, nth_error pieces 1 with
  | Some client, Some keywords =>
      if Text.truthy client && Text.truthy keywords
      then Some (client,
                 filter Text.truthy (map Text.trim (JS.split "," keywords)))
      else None
  | _, _ => None
  end.

(** The callback that [loadSettings] maps over the entries of the client
    keywords: [`${client}: ${keywords.join(', ')}`]. *)
Definition show_keywords_line (client : string) (keywords : list string)
  : string :=
  client ++ ": " ++ Text.join ", " keywords.

(** The [settings] object of [saveSettings], up to the client keywords,
    which the background script does not read. *)
Definition settings (f : Form.t) : Settings.t :=
  {| Settings.serverUrl := Some (Text.trim (Form.serverUrl f));
     Settings.enabled := None;
     Settings.trackUrls := Some (Form.trackUrls f);
     Settings.trackTitles := Some (Form.trackTitles f);
     Settings.excludePatterns := Some (parse_lines (Form.excludePatterns f));
     Settings.excludeDomains := Some (parse_lines (Form.excludeDomains f));
     Settings.incognitoTracking := Some (Form.incognitoTracking f) |}.

End Options.

Module Popup.

(** [categorizeUrl], the popup's own short categorizer. *)
Definition categorizeUrl (hostname path : string) : option string :=
  let domain := JS.toLowerCase hostname in
  if JS.includes domain "github.com" then
    if JS.includes path "/pull/" then Some "Code Review"
    else Some "Development"
  else if JS.includes domain "stackoverflow.com" then Some "Research"
  else if JS.includes domain "mail.google.com" || JS.includes domain "outlook."
  then Some "Email"
  else if JS.includes domain "slack.com" || JS.includes domain "discord.com"
  then Some "Chat"
  else if JS.includes domain "docs.google.com" then Some "Documents"
  else if JS.includes domain "youtube.com" || JS.includes domain "netflix.com"
  then Some "Entertainment"
  else if JS.includes domain "twitter.com" || JS.includes domain "facebook.com"
  then Some "Social Media"
  else if JS.includes domain "amazon." then Some "Shopping"
  else None.

(** The text that [updateCurrentTab] puts in [pageUrl] for a URL that
    parses: the hostname, the first 30 characters of the path, and three
    dots when the path is longer. *)
Definition pageUrl_text (url : URL.t) : string :=
  URL.hostname url ++ String.substring 0 30 (URL.pathname url) ++
  (if Nat.ltb 30 (String.length (URL.pathname url)) then "..." else "").

End Popup.

(** ** Bookkeeping on the transition system *)

(** [Object.assign] on two settings objects, which is also what
    [chrome.storage.sync.set] does to the stored keys: the keys of [newer]
    replace those of [older]. *)
Definition merge (older newer : Settings.t) : Settings.t :=
  {| Settings.serverUrl :=
       match Settings.serverUrl newer with Some v => Some v | None => Settings.serverUrl older end;
     Settings.enabled :=
       match Settings.enabled newer with Some v => Some v | None => Settings.enabled older end;
     Settings.trackUrls :=
       match Settings.trackUrls newer with Some v => Some v | None => Settings.trackUrls older end;
     Settings.trackTitles :=
       match Settings.trackTitles newer with Some v => Some v | None => Settings.trackTitles older end;
     Settings.excludePatterns :=
       match Settings.excludePatterns newer with Some v => Some v | None => Settings.excludePatterns older end;
     Settings.excludeDomains :=
       match Settings.excludeDomains newer with Some v => Some v | None => Settings.excludeDomains older end;
     Settings.incognitoTracking :=
       match Settings.incognitoTracking newer with Some v => Some v | None => Settings.incognitoTracking older end |}.

(** The keys written to the settings storage by a list of outputs (latest
    first), merged in the order of the writes. *)
Fixpoint written (o : list Output) : Settings.t :=
  match o with
  | [] => Settings.empty
  | StorageSet x :: rest => merge (written rest) x
  | _ :: rest => written rest
  end.

(** The answers given so far, and the [testConnection] calls that still
    wait for their bucket request. *)
Definition answered (y : System) : nat :=
  List.length (filter (fun o => match o with SendResponse _ => true | _ => false end)
                 (out y)).

Definition tests_waiting (y : System) : nat :=
  List.length (filter (fun w => match w with FromTest => true | _ => false end)
                 (ensuring y)).

(** The events that can turn [CONFIG.enabled] on. *)
Definition enabling (e : Event) : bool :=
  match e with
  | SettingsLoaded items | Receive (SaveSettings items) =>
      match Settings.enabled items with Some true => true | _ => false end
  | Receive (SetEnabled b) => b
  | _ => false
  end.

(** ** Concrete forms and settings *)

Module Cases.

(** An options form whose exclusion box has a blank line and a padded
    entry. *)
Definition form : Form.t :=
  {| Form.serverUrl := " http://localhost:5600 ";
     Form.trackUrls := true; Form.trackTitles := false;
     Form.incognitoTracking := false;
     Form.excludeDomains :=
       Options.show_lines ["localhost"; ""; "  bank.example  "];
     Form.excludePatterns := "";
     Form.clientKeywords := "acme-corp: acme, project-x, acme.com" |}.

(** Settings whose list of excluded domains holds the empty string. *)
Definition block_all : Config :=
  assign CONFIG_initial
    {| Settings.serverUrl := None; Settings.enabled := None;
       Settings.trackUrls := None; Settings.trackTitles := None;
       Settings.excludePatterns := None;
       Settings.excludeDomains := Some [""];
       Settings.incognitoTracking := None |}.

Definition long_url : URL.t :=
  {| URL.protocol := "https:"; URL.hostname := "github.com";
     URL.pathname := "/user/repository-with-a-long-name/pull/123" |}.

End Cases.

(** ** Statements of the specification that are compared with the code *)

(** The specification's [setEnabled]: one sampling cycle is started on a
    change from disabled to enabled, and in no other case. *)
Definition setEnabled_samples_on_transition_only : Prop :=
  forall (y : System) (b : bool),
    cycles (onMessage (SetEnabled b) y)
    = (if b && negb (enabled (CONFIG (st y))) then 1 else 0) + cycles y.

(** The specification's bucket-ensure: every attempt, whoever makes it,
    puts the connection state to [Checking]. *)
Definition bucket_ensure_enters_Checking : Prop :=
  forall (who : Origin) (y : System),
    connectionState (st (call_createBucket who y)) = Checking.

(** The specification's bucket request: its [hostname] is the hostname
    that the server reported. *)
Definition bucket_body_names_reported_hostname : Prop :=
  forall (reported : string) (s s' : State) (server bucket : string)
         (body : BucketBody),
    createBucket (init_bucketId (Info (Some reported)) s)
      = (s', Some (PostBucket server bucket body)) ->
    hostname body = Some reported.

(** A response that counts as success for the bucket request. *)
Definition bucket_ok (r : FetchResult) : Prop :=
  exists status, r = Response status /\
                 ((200 <= status <= 299)%Z \/ status = 304%Z).

(** A system in which nothing can make the flag [isConnected] true short
    of a bucket request that succeeds: the flag is off and no heartbeat
    request is in flight. *)
Definition silent (y : System) : Prop :=
  isConnected (st y) = false /\ beating y = 0.

(** ** Concrete systems *)

Module Demo.

Definition github_tab : Tab.t :=
  {| Tab.url := Some "https://github.com/user/repo/pull/123";
     Tab.title := Some "Fix bug #456 - Pull Request";
     Tab.incognito := false; Tab.audible := None; Tab.active := true |}.

Definition private_tab : Tab.t :=
  {| Tab.url := Some "https://github.com/user/repo";
     Tab.title := Some "repo"; Tab.incognito := true;
     Tab.audible := None; Tab.active := true |}.

Definition localhost_tab : Tab.t :=
  {| Tab.url := Some "http://mylocalhost.example/admin";
     Tab.title := Some "Admin"; Tab.incognito := false;
     Tab.audible := None; Tab.active := true |}.

(** The events of a start against a server that calls itself
    [laptop] and accepts the bucket. *)
Definition startup : list Event :=
  [SettingsLoaded Settings.empty; InfoResolved (Info (Some "laptop"));
   BucketResolved 0 (Response 200)].

Definition named : Config :=
  set_bucketId (Some "aw-watcher-web-enhanced_laptop") CONFIG_initial.

(** The system after [startup]: connected, the first cycle asked for. *)
Definition connected : System :=
  {| st := {| CONFIG := named; currentTab := None; lastHeartbeat := None;
              isConnected := true |};
     phase := Named;
     out := [Fetch (PostBucket "http://localhost:5600"
                      "aw-watcher-web-enhanced_laptop"
                      {| client := "aw-watcher-web-enhanced";
                         type := "web.tab.current";
                         hostname := Some "laptop" |});
             Fetch (GetInfo "http://localhost:5600")];
     cycles := 1; counting := []; beating := 0; ensuring := [];
     retries := 0 |}.

Definition github_data : Data.t :=
  {| Data.url := "https://github.com/user/repo/pull/123";
     Data.title := "Fix bug #456 - Pull Request";
     Data.domain := "github.com"; Data.incognito := false;
     Data.tabCount := 0; Data.audible := false; Data.protocol := "https";
     Data.path := "/user/repo/pull/123";
     Data.category := Some "Work/Development/Code Review" |}.

Definition redacted_data : Data.t :=
  {| Data.url := "[redacted]"; Data.title := "[redacted]";
     Data.domain := "github.com"; Data.incognito := false;
     Data.tabCount := 0; Data.audible := false; Data.protocol := "https";
     Data.path := "/user/repo/pull/123";
     Data.category := Some "Work/Development/Code Review" |}.

(** The same system with the flag off and one event waiting for the
    tab count. *)
Definition disconnected : System :=
  {| st := with_isConnected false (st connected); phase := Named;
     out := out connected; cycles := 0; counting := [github_data];
     beating := 0; ensuring := []; retries := 0 |}.

End Demo.

(** Further systems to compute with. *)
Module Systems.

(** The connected system with one event waiting for the tab count. *)
Definition waiting : System :=
  {| st := st Demo.connected; phase := Named; out := out Demo.connected;
     cycles := 0; counting := [Demo.github_data]; beating := 0;
     ensuring := []; retries := 0 |}.

(** The connected system with one heartbeat request in flight. *)
Definition inflight : System :=
  {| st := st Demo.connected; phase := Named; out := out Demo.connected;
     cycles := 0; counting := []; beating := 1; ensuring := [];
     retries := 0 |}.

(** The connected system after [setEnabled(false)], one cycle asked
    for. *)
Definition disabled : System :=
  {| st := with_CONFIG (set_enabled false (CONFIG (st Demo.connected)))
             (st Demo.connected);
     phase := Named; out := out Demo.connected; cycles := 1;
     counting := []; beating := 0; ensuring := []; retries := 0 |}.

End Systems.

(** ** Text within the reach of the model, and failures *)


(** A bucket request or a heartbeat request that comes back as a
    failure. *)
Definition failure (e : Event) : bool :=
  match e with
  | BucketResolved _ r =>
      negb match r with
           | Response status => response_ok status || (status =? 304)%Z
           | NetworkError => false
           end
  | HeartbeatResolved r _ =>
      negb match r with
           | Response status => response_ok status
           | NetworkError => false
           end
  | _ => false
  end.

(** The specification's Disconnected interval: from a failure of either
    kind on, the state is Disconnected and no heartbeat is sent until a
    bucket request succeeds. *)
Definition dropped_until_bucket_success : Prop :=
  forall (host : Host) (e0 : Event) (y0 y : System) (es : list Event)
         (y' : System),
    failure e0 = true ->
    step e0 y0 = Some y ->
    forallb (fun e => negb (bucket_success e)) es = true ->
    run es y = Some y' ->
    connectionState (st y') = Disconnected /\
    heartbeat_posts y' = heartbeat_posts y.

Module Races.

(** The connected system after one cycle on the pull-request tab and a
    [testConnection]: one heartbeat request and one bucket request are in
    flight. *)
Definition testing : System :=
  {| st := with_currentTab (Some Demo.github_tab) (st Demo.connected);
     phase := Named;
     out := Fetch (PostBucket "http://localhost:5600"
                     "aw-watcher-web-enhanced_laptop"
                     {| client := "aw-watcher-web-enhanced";
                        type := "web.tab.current";
                        hostname := Some "laptop" |})
            :: Fetch (PostHeartbeat "http://localhost:5600"
                        (Some "aw-watcher-web-enhanced_laptop") 6
                        {| timestamp := 1000; duration := 0;
                           data := Data.with_tabCount 1 Demo.github_data |})
            :: out Demo.connected;
     cycles := 0; counting := []; beating := 1; ensuring := [FromTest];
     retries := 0 |}.

(** The same with no heartbeat request in flight. *)
Definition testing_alone : System :=
  {| st := st Demo.connected; phase := Named; out := out Demo.connected;
     cycles := 0; counting := []; beating := 0; ensuring := [FromTest];
     retries := 0 |}.

(** What follows the failure of the bucket request in the two systems:
    the heartbeat request comes back (in the first), the user changes
    tab, and the cycle runs to its end. *)
Definition late_success : list Event :=
  [HeartbeatResolved (Response 200) 2000; TabActivated;
   ActiveTabQueried [Demo.github_tab];
   TabsCounted 0 [Demo.github_tab] 3000].

Definition next_cycle : list Event :=
  [TabActivated; ActiveTabQueried [Demo.github_tab];
   TabsCounted 0 [Demo.github_tab] 3000].

End Races.

(** * Properties *)

(** ** Strings *)

Arguments JS.startsWith : simpl never.

Lemma startsWith_empty (s : string) : JS.startsWith s "" = true.
Proof. destruct s; reflexivity. Qed.

Lemma startsWith_app (p q s : string) :
  JS.startsWith s (p ++ q) = true -> JS.startsWith s p = true.
Proof.
  unfold JS.startsWith. revert s.
  induction p as [|a p IH]; intros s H.
  - destruct s; reflexivity.
  - destruct s as [|b s]; simpl in *; [discriminate|].
    destruct (ascii_dec a b); [apply IH; exact H | discriminate].
Qed.

Lemma includes_app (p q s : string) :
  JS.includes s (p ++ q) = true -> JS.includes s p = true.
Proof.
  induction s as [|b s IH]; simpl; intros H.
  - apply orb_true_iff in H. destruct H as [H|H]; [|discriminate].
    apply orb_true_iff. left. exact (startsWith_app _ _ _ H).
  - apply orb_true_iff in H. apply orb_true_iff. destruct H as [H|H].
    + left. exact (startsWith_app _ _ _ H).
    + right. exact (IH H).
Qed.

Lemma split_nonempty (sep : ascii) (s : string) : JS.split sep s <> [].
Proof.
  destruct s as [|c s]; simpl; [discriminate|].
  destruct (Ascii.eqb c sep); [discriminate|].
  destruct (JS.split sep s); discriminate.
Qed.

(** A string without the separator is a single piece. *)
Lemma split_without_sep (sep : ascii) (s : string) :
  JS.includes s (String sep "") = false -> JS.split sep s = [s].
Proof.
  induction s as [|c s IH]; simpl; intros H; [reflexivity|].
  apply orb_false_iff in H. destruct H as [H1 H2].
  unfold JS.startsWith in H1. simpl in H1.
  destruct (Ascii.eqb c sep) eqn:E.
  - apply Ascii.eqb_eq in E. subst c.
    destruct (ascii_dec sep sep) as [_|n]; [|contradiction].
    (* the prefix test on the one-character separator has succeeded *)
    destruct s; discriminate.
  - rewrite (IH H2). reflexivity.
Qed.

(** Splitting [p ++ sep ++ s] when [p] has no separator: [p] comes first,
    then the pieces of [s]. *)
Lemma split_app_sep (sep : ascii) (p s : string) :
  JS.includes p (String sep "") = false ->
  JS.split sep (p ++ String sep s) = p :: JS.split sep s.
Proof.
  induction p as [|c p IH]; simpl; intros H.
  - rewrite Ascii.eqb_refl. reflexivity.
  - apply orb_false_iff in H. destruct H as [H1 H2].
    unfold JS.startsWith in H1. simpl in H1.
    destruct (Ascii.eqb c sep) eqn:E.
    + apply Ascii.eqb_eq in E. subst c.
      destruct (ascii_dec sep sep) as [_|n]; [|contradiction].
      destruct p; discriminate.
    + rewrite (IH H2). reflexivity.
Qed.

(** ** The categorizer *)

(** C8.  For the hostname [github.com] the categorizer returns the label
    of the first path sub-rule that matches ([/pull/], then [/issues/]),
    else the base label; in particular the three paths of the
    specification get Code Review, Issues and Development. *)
Theorem categorize_github :
  (forall path, categorizeDomain "github.com" path = Some (github_label path)) /\
  categorizeDomain "github.com" "/user/repo/pull/123"
    = Some "Work/Development/Code Review" /\
  categorizeDomain "github.com" "/user/repo/issues/1"
    = Some "Work/Development/Issues" /\
  categorizeDomain "github.com" "/user/repo" = Some "Work/Development".
Proof.
  split; [|repeat split; reflexivity].
  intros path. unfold categorizeDomain, github_label.
  change (JS.includes (JS.toLowerCase "github.com") "github.com") with true.
  cbv iota.
  destruct (JS.includes path "/pull/"); [reflexivity|].
  destruct (JS.includes path "/issues/"); reflexivity.
Qed.

(** A hostname that contains [docs.google.com] contains [docs.], so the
    documentation rule, which stands earlier in the chain, always wins:
    no input reaches the spreadsheet sub-rule. *)
Lemma spreadsheets_label_unreachable (hostname path : string) :
  categorizeDomain hostname path <> Some "Work/Data/Spreadsheets".
Proof.
  unfold categorizeDomain.
  set (domain := JS.toLowerCase hostname).
  pose proof (includes_app "docs." "google.com" domain) as Hdocs.
  change ("docs." ++ "google.com") with "docs.google.com" in Hdocs.
  repeat match goal with
         | |- context [JS.includes domain ?k] =>
             let E := fresh "E" in
             destruct (JS.includes domain k) eqn:E; simpl;
             try discriminate
         | |- context [JS.includes path ?k] =>
             destruct (JS.includes path k); simpl; try discriminate
         end;
    try (specialize (Hdocs eq_refl); discriminate).
Qed.

(** C1.  On [docs.google.com] with path [/spreadsheets/d/1] the chain of
    [categorizeDomain] stops at the documentation rule ([docs.]), which
    stands before the Google Workspace entry: the result is
    [Work/Development/Documentation], not [Work/Data/Spreadsheets]. *)
Theorem categorize_docs_google_spreadsheets :
  categorizeDomain "docs.google.com" "/spreadsheets/d/1"
    = Some "Work/Development/Documentation" /\
  categorizeDomain "docs.google.com" "/spreadsheets/d/1"
    <> Some "Work/Data/Spreadsheets".
Proof. split; [reflexivity | discriminate]. Qed.

(** ** The privacy filter *)

Section Filter.

Context {host : Host}.

Lemma malformed_never_matches (p u : string) :
  malformed p -> pattern_matches u p = false.
Proof. intros H. unfold pattern_matches. rewrite H. reflexivity. Qed.

Lemma existsb_skip {A : Type} (f : A -> bool) (l1 l2 : list A) (x : A) :
  f x = false -> existsb f (l1 ++ x :: l2) = existsb f (l1 ++ l2).
Proof.
  intros H. rewrite !existsb_app. simpl. rewrite H. reflexivity.
Qed.

(** A cycle whose snapshot is rejected: nothing is emitted, nothing is
    left waiting for the tab count, the variables are as before. *)
Lemma rejected_cycle (tabs : list Tab.t) (y y' : System) :
  heartbeat tabs (st y) = (st y, None) ->
  step (ActiveTabQueried tabs) y = Some y' ->
  st y' = st y /\ out y' = out y /\ counting y' = counting y /\
  beating y' = beating y.
Proof.
  intros Hh Hs. simpl in Hs.
  destruct (cycles y) as [|n]; [discriminate|].
  rewrite Hh in Hs. inversion Hs; subst; simpl.
  rewrite app_nil_r. repeat split; reflexivity.
Qed.

(** The domain test of [processTabData] on the hostname as the URL
    object gives it. *)
Lemma excluded_hostname_rejected (c : Config) (tab : Tab.t)
    (tab_url : string) (u : URL.t) (d : string) :
  Tab.url tab = Some tab_url ->
  URL_parse tab_url = Some u ->
  In d (excludeDomains c) ->
  JS.includes (URL.hostname u) d = true ->
  processTabData c tab = None.
Proof.
  intros Hurl Hparse Hin Hinc. unfold processTabData. rewrite Hurl.
  destruct tab_url as [|ch r]; [reflexivity|].
  rewrite Hparse.
  assert (E : existsb (fun d => JS.includes (URL.hostname u) d)
                (excludeDomains c) = true).
  { apply existsb_exists. exists d. split; assumption. }
  rewrite E. reflexivity.
Qed.

(** C7.  When the active tab is incognito and [incognitoTracking] is
    off, the cycle stops in [getCurrentTabData]: no event data is built,
    no request goes out and nothing waits to be sent, whatever the other
    settings and the tab's URL and title are. *)
Theorem incognito_blocked (y y' : System) (tab : Tab.t) (rest : list Tab.t) :
  Tab.incognito tab = true ->
  incognitoTracking (CONFIG (st y)) = false ->
  step (ActiveTabQueried (tab :: rest)) y = Some y' ->
  getCurrentTabData (CONFIG (st y)) (tab :: rest) = None /\
  heartbeat (tab :: rest) (st y) = (st y, None) /\
  st y' = st y /\ out y' = out y /\ counting y' = counting y /\
  beating y' = beating y.
Proof.
  intros Hi Ht Hs.
  assert (G : getCurrentTabData (CONFIG (st y)) (tab :: rest) = None).
  { simpl. rewrite Hi, Ht. reflexivity. }
  assert (Hh : heartbeat (tab :: rest) (st y) = (st y, None)).
  { unfold heartbeat. rewrite G. reflexivity. }
  split; [exact G|]. split; [exact Hh|].
  exact (rejected_cycle _ _ _ Hh Hs).
Qed.

(** C9.  When the lower-cased hostname of the active tab's URL contains an
    entry of [excludeDomains] as a substring, the cycle ends in
    [processTabData] with no event data: no request goes out and nothing
    waits to be sent, whatever the path and the title are.  The hostname
    is [url.hostname], which the URL object reports in lower case already
    (the parser lower-cases the host of http, https and file URLs); the
    filter tests that string as it is. *)
Theorem excluded_domain_never_dispatched (y y' : System) (tab : Tab.t)
    (rest : list Tab.t) (tab_url : string) (u : URL.t) (d : string) :
  Tab.url tab = Some tab_url ->
  URL_parse tab_url = Some u ->
  JS.toLowerCase (URL.hostname u) = URL.hostname u ->
  In d (excludeDomains (CONFIG (st y))) ->
  JS.includes (JS.toLowerCase (URL.hostname u)) d = true ->
  step (ActiveTabQueried (tab :: rest)) y = Some y' ->
  processTabData (CONFIG (st y)) tab = None /\
  heartbeat (tab :: rest) (st y) = (st y, None) /\
  st y' = st y /\ out y' = out y /\ counting y' = counting y /\
  beating y' = beating y.
Proof.
  intros Hurl Hparse Hlow Hin Hinc Hs.
  rewrite Hlow in Hinc.
  pose proof (excluded_hostname_rejected _ _ _ _ _ Hurl Hparse Hin Hinc) as P.
  assert (Hh : heartbeat (tab :: rest) (st y) = (st y, None)).
  { unfold heartbeat.
    destruct (getCurrentTabData (CONFIG (st y)) (tab :: rest)) as [t|] eqn:G;
      [|reflexivity].
    assert (t = tab) as ->.
    { simpl in G.
      destruct (Tab.incognito tab && negb (incognitoTracking (CONFIG (st y))));
        [discriminate|].
      destruct (internal_page (Tab.url tab)); [discriminate|].
      inversion G; reflexivity. }
    rewrite P. reflexivity. }
  split; [exact P|]. split; [exact Hh|].
  exact (rejected_cycle _ _ _ Hh Hs).
Qed.

(** C6.  An entry of [excludePatterns] that does not compile counts as
    matching no URL: its test is [false] (the exception is caught where
    it is thrown, [processTabData] returns as usual), and
    [processTabData] gives the same result with the entry as without it,
    so a tab that passes the other checks is not blocked by it. *)
Theorem malformed_pattern_is_ignored (c : Config) (tab : Tab.t)
    (before after : list string) (p : string) :
  malformed p ->
  (forall u, pattern_matches u p = false) /\
  processTabData (with_excludePatterns (before ++ p :: after) c) tab
    = processTabData (with_excludePatterns (before ++ after) c) tab.
Proof.
  intros Hp. split; [intros u; exact (malformed_never_matches p u Hp)|].
  unfold processTabData. simpl.
  destruct (Tab.url tab) as [[|ch r]|]; try reflexivity.
  destruct (URL_parse (String ch r)) as [u|]; [|reflexivity].
  rewrite (existsb_skip (pattern_matches (String ch r)) before after p
             (malformed_never_matches p _ Hp)).
  reflexivity.
Qed.

(** C10.  When [processTabData] accepts a tab, the [url] of the event
    data is the tab's URL or, with [trackUrls] off, ["[redacted]"]; the
    [title] is the tab's title or, with [trackTitles] off,
    ["[redacted]"]; and with any other values of the two flags the tab
    is accepted as well, with the same [domain], [path], [protocol] and
    [category], which come from the parsed URL of the tab. *)
Theorem redaction_keeps_derived_fields (c : Config) (tab : Tab.t)
    (d : Data.t) :
  processTabData c tab = Some d ->
  exists tab_url u,
    Tab.url tab = Some tab_url /\ URL_parse tab_url = Some u /\
    Data.url d = (if trackUrls c then tab_url else "[redacted]") /\
    Data.title d = (if trackTitles c then JS.or_string (Tab.title tab) ""
                    else "[redacted]") /\
    Data.domain d = URL.hostname u /\
    Data.path d = URL.pathname u /\
    Data.protocol d = JS.remove_first ":" (URL.protocol u) /\
    Data.category d = categorizeDomain (URL.hostname u) (URL.pathname u) /\
    forall urls titles, exists d',
      processTabData (with_tracking urls titles c) tab = Some d' /\
      Data.url d' = (if urls then tab_url else "[redacted]") /\
      Data.title d' = (if titles then JS.or_string (Tab.title tab) ""
                       else "[redacted]") /\
      Data.domain d' = Data.domain d /\ Data.path d' = Data.path d /\
      Data.protocol d' = Data.protocol d /\
      Data.category d' = Data.category d.
Proof.
  unfold processTabData. simpl.
  destruct (Tab.url tab) as [[|ch r]|]; try discriminate.
  destruct (URL_parse (String ch r)) as [u|] eqn:Hp; [|discriminate].
  destruct (existsb _ (excludeDomains c)); [discriminate|].
  destruct (existsb _ (excludePatterns c)); [discriminate|].
  intros H. inversion H; subst; clear H. simpl.
  exists (String ch r), u.
  split; [reflexivity|]. split; [exact Hp|]. repeat (split; [reflexivity|]).
  intros urls titles. eexists. split; [reflexivity|].
  simpl. repeat (split; [reflexivity|]). reflexivity.
Qed.

End Filter.

(** ** The connection flag and the dispatcher *)

Lemma response_ok_iff (status : Z) :
  response_ok status = true <-> (200 <= status <= 299)%Z.
Proof.
  unfold response_ok. rewrite andb_true_iff, !Z.leb_le. tauto.
Qed.

Lemma bucket_ok_iff (r : FetchResult) :
  bucket_ok r <->
  match r with
  | Response status => response_ok status || (status =? 304)%Z = true
  | NetworkError => False
  end.
Proof.
  unfold bucket_ok. destruct r as [|status].
  - split; [intros (x & H & _); discriminate | contradiction].
  - rewrite orb_true_iff, response_ok_iff, Z.eqb_eq. split.
    + intros (x & H & Hx). inversion H; subst. exact Hx.
    + intros H. exists status. split; [reflexivity | exact H].
Qed.

Lemma createBucket_resolved_flag (r : FetchResult) (s : State) :
  createBucket_resolved r s
  = with_isConnected
      (match r with
       | Response status => response_ok status || (status =? 304)%Z
       | NetworkError => false
       end) s.
Proof.
  destruct r as [|status]; simpl; [reflexivity|].
  destruct (response_ok status || (status =? 304)%Z); reflexivity.
Qed.

Lemma connectionState_flag (s : State) :
  (connectionState s = Connected <-> isConnected s = true) /\
  (connectionState s = Disconnected <-> isConnected s = false) /\
  connectionState s <> Checking.
Proof.
  unfold connectionState. destruct (isConnected s); repeat split;
    intros; congruence.
Qed.

(** What a call of [createBucket] changes in the system. *)
Lemma call_createBucket_st (who : Origin) (y : System) :
  st (call_createBucket who y)
  = match bucketId (CONFIG (st y)) with
    | Some _ => st y
    | None => with_isConnected false (st y)
    end.
Proof.
  unfold call_createBucket, createBucket.
  destruct (bucketId (CONFIG (st y))); [reflexivity|].
  destruct who; reflexivity.
Qed.

(** The three callers of [createBucket] and the task that applies its
    outcome. *)
Lemma bucket_ensure_callers {host : Host} (y : System) :
  onMessage TestConnection y = call_createBucket FromTest y /\
  (forall i r who rest,
      take_out i (ensuring y) = Some (who, rest) ->
      exists y', @step host (BucketResolved i r) y = Some y' /\
                 st y' = createBucket_resolved r (st y)).
Proof.
  split; [reflexivity|].
  intros i r who rest H. simpl. rewrite H.
  eexists. split; [reflexivity|]. destruct who; reflexivity.
Qed.

(** C3 (as amended).  A bucket-ensure attempt, whoever makes it, never
    puts the connection state to [Checking]: when the bucket is named the
    request goes out and the variables stay as they are until the answer
    is there, and when it is not yet named no request goes out and the
    state is Disconnected at once.  When the answer is there, the state is
    Connected exactly when the server responded 2xx or 304, and
    Disconnected exactly on a network error or any other response. *)
Theorem bucket_ensure_transitions (who : Origin) (y : System)
    (r : FetchResult) (s : State) :
  connectionState (st (call_createBucket who y)) <> Checking /\
  st (call_createBucket who y)
    = match bucketId (CONFIG (st y)) with
      | Some _ => st y
      | None => with_isConnected false (st y)
      end /\
  (connectionState (createBucket_resolved r s) = Connected <-> bucket_ok r) /\
  (connectionState (createBucket_resolved r s) = Disconnected <-> ~ bucket_ok r).
Proof.
  split; [apply connectionState_flag|].
  split; [apply call_createBucket_st|].
  rewrite createBucket_resolved_flag, bucket_ok_iff.
  unfold connectionState. simpl.
  destruct r as [|status]; simpl.
  - split; split; intros H; try discriminate; try contradiction; try reflexivity.
    intros F; exact F.
  - destruct (response_ok status || (status =? 304)%Z); split; split;
      intros H; try discriminate; try reflexivity; try congruence.
Qed.

(** C3 (as stated) fails: in the connected system a [testConnection]
    leaves the state Connected while its request is in flight; no attempt
    ever shows [Checking]. *)
Lemma testConnection_does_not_enter_Checking :
  connectionState
    (st (call_createBucket FromTest Demo.connected)) = Connected /\
  ~ bucket_ensure_enters_Checking.
Proof.
  split; [reflexivity|].
  intros H. specialize (H FromTest Demo.connected). discriminate H.
Qed.

(** C2 (as amended).  [setEnabled(b)] stores [b] in [CONFIG.enabled],
    writes [{enabled: b}] to the settings storage, answers success, and
    starts one sampling cycle exactly when [b] is true, whatever
    [CONFIG.enabled] was before; [setEnabled(false)] starts none. *)
Theorem setEnabled_effect (b : bool) (y : System) :
  enabled (CONFIG (st (onMessage (SetEnabled b) y))) = b /\
  out (onMessage (SetEnabled b) y)
    = SendResponse SuccessReply :: StorageSet (Settings.only_enabled b) :: out y /\
  cycles (onMessage (SetEnabled b) y) = (if b then 1 else 0) + cycles y /\
  isConnected (st (onMessage (SetEnabled b) y)) = isConnected (st y).
Proof. destruct b; repeat split; reflexivity. Qed.

(** C2 (as stated) fails: with [CONFIG.enabled] already true,
    [setEnabled(true)] starts a sampling cycle. *)
Lemma setEnabled_true_when_enabled_samples :
  enabled (CONFIG (st System_initial)) = true /\
  cycles System_initial = 0 /\
  cycles (onMessage (SetEnabled true) System_initial) = 1 /\
  ~ setEnabled_samples_on_transition_only.
Proof.
  repeat split. intros H.
  specialize (H System_initial true). discriminate H.
Qed.

(** ** The bucket's name and the bucket request *)

(** The [hostname] of the bucket request is the part of the reported
    hostname before its first underscore. *)
Lemma bucket_body_hostname (reported : string) (s : State) :
  reported <> "" ->
  createBucket (init_bucketId (Info (Some reported)) s)
  = (init_bucketId (Info (Some reported)) s,
     Some (PostBucket (serverUrl (CONFIG s))
             ("aw-watcher-web-enhanced_" ++ reported)
             {| client := "aw-watcher-web-enhanced";
                type := "web.tab.current";
                hostname := hd_error (JS.split "_" reported) |})).
Proof.
  intros Hne. destruct reported as [|c r]; [contradiction|].
  unfold createBucket, init_bucketId, getHostname, JS.or_string.
  cbn [CONFIG with_CONFIG set_bucketId bucketId serverUrl].
  change ("aw-watcher-web-enhanced_" ++ String c r)
    with ("aw-watcher-web-enhanced" ++ String "_" (String c r)).
  rewrite split_app_sep by reflexivity.
  reflexivity.
Qed.

(** For a reported hostname without underscore the request names it. *)
Lemma bucket_body_hostname_plain (reported : string) (s : State) :
  reported <> "" ->
  JS.includes reported "_" = false ->
  createBucket (init_bucketId (Info (Some reported)) s)
  = (init_bucketId (Info (Some reported)) s,
     Some (PostBucket (serverUrl (CONFIG s))
             ("aw-watcher-web-enhanced_" ++ reported)
             {| client := "aw-watcher-web-enhanced";
                type := "web.tab.current";
                hostname := Some reported |})).
Proof.
  intros Hne Hu. rewrite (bucket_body_hostname reported s Hne).
  rewrite (split_without_sep "_" reported Hu). reflexivity.
Qed.

(** C5.  For the reported hostname [my_host] the bucket is named
    [aw-watcher-web-enhanced_my_host], and the [hostname] of the bucket
    request is [my]: [split('_')[1]] is the piece between the first two
    underscores of the bucket's name, not what follows the prefix.  The
    statement of the specification fails there. *)
Theorem bucket_body_hostname_cut_at_underscore :
  bucketId (CONFIG (init_bucketId (Info (Some "my_host")) State_initial))
    = Some "aw-watcher-web-enhanced_my_host" /\
  createBucket (init_bucketId (Info (Some "my_host")) State_initial)
    = (init_bucketId (Info (Some "my_host")) State_initial,
       Some (PostBucket "http://localhost:5600"
               "aw-watcher-web-enhanced_my_host"
               {| client := "aw-watcher-web-enhanced";
                  type := "web.tab.current";
                  hostname := Some "my" |})) /\
  ~ bucket_body_names_reported_hostname.
Proof.
  split; [reflexivity|]. split; [reflexivity|].
  intros H.
  specialize (H "my_host" State_initial _ _ _ _ eq_refl).
  discriminate H.
Qed.

(** ** Disconnected: nothing is sent *)

Lemma sendHeartbeat_disconnected (now : Z) (d : Data.t) (s : State) :
  isConnected s = false -> sendHeartbeat now d s = (s, None).
Proof.
  intros H. unfold sendHeartbeat. rewrite H, orb_true_r. reflexivity.
Qed.

(** A heartbeat request that fails turns the flag off and sets the retry
    timer. *)
Lemma heartbeat_failure_disconnects (r : FetchResult) (now : Z) (s : State) :
  match r with Response status => response_ok status | NetworkError => false end
    = false ->
  sendHeartbeat_resolved r now s = (with_isConnected false s, true).
Proof.
  destruct r as [|status]; simpl; intros H; [reflexivity|].
  rewrite H. reflexivity.
Qed.

Lemma call_createBucket_silent (who : Origin) (y : System) :
  silent y ->
  silent (call_createBucket who y) /\
  filter is_heartbeat_post (out (call_createBucket who y))
    = filter is_heartbeat_post (out y).
Proof.
  intros [Hc Hb]. unfold silent, call_createBucket, createBucket.
  destruct (bucketId (CONFIG (st y))); simpl.
  - repeat split; assumption.
  - destruct who; simpl; repeat split; assumption.
Qed.

Ltac after_createBucket :=
  match goal with
  | |- context [call_createBucket ?who ?z] =>
      let A := fresh in
      let B := fresh in
      destruct (call_createBucket_silent who z) as [A B];
      [split; simpl; assumption | split; [exact A | exact B]]
  end.

Section Dispatcher.

Context {host : Host}.

Lemma heartbeat_keeps_flag (tabs : list Tab.t) (s : State) :
  isConnected (fst (heartbeat tabs s)) = isConnected s.
Proof.
  unfold heartbeat.
  destruct (getCurrentTabData (CONFIG s) tabs) as [tab|]; [|reflexivity].
  destruct (processTabData (CONFIG s) tab); reflexivity.
Qed.

(** Connected and enabled, an event that reaches [sendHeartbeat] goes out
    as it was built, with the tab count filled in. *)
Lemma connected_sends (now : Z) (tabs : list Tab.t) (d : Data.t) (s : State) :
  enabled (CONFIG s) = true ->
  isConnected s = true ->
  heartbeat_counted now tabs d s
  = (s, Some (PostHeartbeat (serverUrl (CONFIG s)) (bucketId (CONFIG s))
                (pulsetime (CONFIG s))
                {| timestamp := now; duration := 0;
                   data := Data.with_tabCount (List.length tabs) d |})) /\
  Data.url (Data.with_tabCount (List.length tabs) d) = Data.url d /\
  Data.title (Data.with_tabCount (List.length tabs) d) = Data.title d /\
  Data.domain (Data.with_tabCount (List.length tabs) d) = Data.domain d /\
  Data.path (Data.with_tabCount (List.length tabs) d) = Data.path d /\
  Data.protocol (Data.with_tabCount (List.length tabs) d) = Data.protocol d /\
  Data.category (Data.with_tabCount (List.length tabs) d) = Data.category d.
Proof.
  intros He Hc. unfold heartbeat_counted, sendHeartbeat.
  rewrite He, Hc. repeat split.
Qed.

(** While the connection state is Disconnected, an event that has
    been produced and reaches [sendHeartbeat] is dropped: no request
    goes out, nothing else is emitted, the variables and the pending
    requests and timers are as before, and the event is taken off the
    list of events waiting for the tab count, not kept anywhere. *)
Theorem disconnected_drops_events (y y' : System) (i : nat)
    (tabs : list Tab.t) (now : Z) :
  connectionState (st y) = Disconnected ->
  step (TabsCounted i tabs now) y = Some y' ->
  (forall d, heartbeat_counted now tabs d (st y) = (st y, None)) /\
  st y' = st y /\ out y' = out y /\ beating y' = beating y /\
  ensuring y' = ensuring y /\ retries y' = retries y /\
  cycles y' = cycles y /\
  exists d, take_out i (counting y) = Some (d, counting y').
Proof.
  intros Hd Hs. apply connectionState_flag in Hd.
  assert (Hdrop : forall d, heartbeat_counted now tabs d (st y) = (st y, None)).
  { intros d. apply sendHeartbeat_disconnected. exact Hd. }
  split; [exact Hdrop|].
  simpl in Hs.
  destruct (take_out i (counting y)) as [[d rest]|]; [|discriminate].
  rewrite Hdrop in Hs. inversion Hs; subst; simpl.
  repeat split. exists d. reflexivity.
Qed.

(** One task keeps a silent system silent and sends no heartbeat,
    unless it is a bucket request coming back with success. *)
Lemma silent_step (e : Event) (y y' : System) :
  silent y ->
  bucket_success e = false ->
  step e y = Some y' ->
  silent y' /\ heartbeat_posts y' = heartbeat_posts y.
Proof.
  intros Hy He Hs. pose proof Hy as [Hc Hb].
  unfold heartbeat_posts.
  destruct e; simpl in Hs; try after_createBucket; unfold silent.
  - destruct (phase y); inversion Hs; subst; simpl.
    repeat split; assumption.
  - destruct (phase y); inversion Hs; subst. after_createBucket.
  - inversion Hs; subst. destruct (String.eqb name "heartbeat");
      repeat split; assumption.
  - inversion Hs; subst. repeat split; assumption.
  - inversion Hs; subst. unfold handleTabUpdated.
    destruct (negb (JS.falsy changed_url) || negb (JS.falsy changed_title));
      [destruct (Tab.active tab)|]; repeat split; assumption.
  - inversion Hs; subst. unfold handleWindowFocusChanged.
    destruct (negb (windowId =? WINDOW_ID_NONE)%Z); repeat split; assumption.
  - destruct (cycles y); [discriminate|].
    pose proof (heartbeat_keeps_flag tabs (st y)) as K.
    destruct (heartbeat tabs (st y)) as [s d]. simpl in K.
    inversion Hs; subst; simpl. repeat split; [congruence | assumption].
  - destruct (take_out i (counting y)) as [[d rest]|]; [|discriminate].
    unfold heartbeat_counted in Hs.
    rewrite (sendHeartbeat_disconnected _ _ _ Hc) in Hs.
    inversion Hs; subst; simpl. repeat split; assumption.
  - rewrite Hb in Hs. discriminate.
  - destruct (retries y); [discriminate|]. inversion Hs; subst.
    after_createBucket.
  - destruct (take_out i (ensuring y)) as [[who rest]|]; [|discriminate].
    rewrite createBucket_resolved_flag in Hs.
    assert (F : match r with
                | Response status => response_ok status || (status =? 304)%Z
                | NetworkError => false
                end = false).
    { destruct r; [reflexivity | exact He]. }
    rewrite F in Hs.
    inversion Hs; subst. destruct who; simpl; repeat split; assumption.
  - inversion Hs; subst. destruct m; simpl; try (repeat split; assumption).
    + destruct enabled0; simpl; repeat split; assumption.
    + after_createBucket.
Qed.

(** From a failure on, with no heartbeat request still in flight, the
    state stays Disconnected and no heartbeat is sent, until a bucket
    request succeeds. *)
Lemma silent_until_bucket_success (es : list Event) (y y' : System) :
  silent y ->
  forallb (fun e => negb (bucket_success e)) es = true ->
  run es y = Some y' ->
  connectionState (st y') = Disconnected /\
  heartbeat_posts y' = heartbeat_posts y.
Proof.
  revert y. induction es as [|e es IH]; simpl; intros y Hy Hes Hr.
  - inversion Hr; subst. split; [|reflexivity].
    apply connectionState_flag. exact (proj1 Hy).
  - apply andb_true_iff in Hes. destruct Hes as [He Hes].
    apply negb_true_iff in He.
    destruct (step e y) as [y1|] eqn:Hs; [|discriminate].
    destruct (silent_step e y y1 Hy He Hs) as [Hy1 Hp].
    destruct (IH y1 Hy1 Hes Hr) as [Hd Hq].
    split; [exact Hd | congruence].
Qed.

End Dispatcher.

(** ** The statements on concrete tabs *)

(** The start-up events bring the initial system to [Demo.connected]. *)
Example startup_connects :
  @run Sample.browser Demo.startup System_initial = Some Demo.connected.
Proof. reflexivity. Qed.

(** Connected, a cycle on an ordinary tab ends in one heartbeat request
    that carries the tab's data and the tab count. *)
Example connected_cycle_sends :
  exists y,
    @run Sample.browser
      [ActiveTabQueried [Demo.github_tab];
       TabsCounted 0 [Demo.github_tab; Demo.private_tab] 1000]
      Demo.connected = Some y /\
    heartbeat_posts y
    = [Fetch (PostHeartbeat "http://localhost:5600"
                (Some "aw-watcher-web-enhanced_laptop") 6
                {| timestamp := 1000; duration := 0;
                   data := Data.with_tabCount 2 Demo.github_data |})] /\
    beating y = 1.
Proof. eexists. repeat split. Qed.

(** A heartbeat request that is still in flight when a bucket request
    fails brings the flag back on when it succeeds, with no bucket request
    succeeding in between: [silent] asks for no heartbeat in flight. *)
Example late_heartbeat_reconnects :
  exists y1 y2,
    @run Sample.browser
      [ActiveTabQueried [Demo.github_tab];
       TabsCounted 0 [Demo.github_tab] 1000;
       Receive TestConnection;
       BucketResolved 0 NetworkError]
      Demo.connected = Some y1 /\
    connectionState (st y1) = Disconnected /\ beating y1 = 1 /\
    @step Sample.browser (HeartbeatResolved (Response 200) 2000) y1 = Some y2 /\
    connectionState (st y2) = Connected.
Proof. do 2 eexists. repeat split. Qed.

(** C7 on a private tab of [github.com], with the default settings. *)
Lemma incognito_blocked_witness :
  Tab.incognito Demo.private_tab = true /\
  incognitoTracking (CONFIG (st Demo.connected)) = false /\
  exists y',
    @step Sample.browser (ActiveTabQueried [Demo.private_tab])
      Demo.connected = Some y' /\
    getCurrentTabData (CONFIG (st Demo.connected)) [Demo.private_tab]
      = None /\
    @heartbeat Sample.browser [Demo.private_tab] (st Demo.connected)
      = (st Demo.connected, None) /\
    st y' = st Demo.connected /\ out y' = out Demo.connected /\
    counting y' = counting Demo.connected /\
    beating y' = beating Demo.connected.
Proof.
  split; [reflexivity|]. split; [reflexivity|].
  eexists. split; [reflexivity|].
  apply (@incognito_blocked Sample.browser Demo.connected _
           Demo.private_tab []); reflexivity.
Defined.

(** C9 on [mylocalhost.example], whose name contains the default entry
    [localhost] without having it as a label. *)
Lemma excluded_domain_never_dispatched_witness :
  exists u y',
    @URL_parse Sample.browser "http://mylocalhost.example/admin" = Some u /\
    JS.toLowerCase (URL.hostname u) = URL.hostname u /\
    In "localhost" (excludeDomains (CONFIG (st Demo.connected))) /\
    JS.includes (JS.toLowerCase (URL.hostname u)) "localhost" = true /\
    @step Sample.browser (ActiveTabQueried [Demo.localhost_tab])
      Demo.connected = Some y' /\
    @processTabData Sample.browser (CONFIG (st Demo.connected))
      Demo.localhost_tab = None /\
    @heartbeat Sample.browser [Demo.localhost_tab] (st Demo.connected)
      = (st Demo.connected, None) /\
    st y' = st Demo.connected /\ out y' = out Demo.connected /\
    counting y' = counting Demo.connected /\
    beating y' = beating Demo.connected.
Proof.
  do 2 eexists.
  split; [reflexivity|]. split; [reflexivity|].
  split; [left; reflexivity|]. split; [reflexivity|].
  split; [reflexivity|].
  eapply (@excluded_domain_never_dispatched Sample.browser Demo.connected _
            Demo.localhost_tab [] "http://mylocalhost.example/admin" _
            "localhost");
    try reflexivity.
  left; reflexivity.
Defined.

(** C6 with the pattern [(], which does not compile, after the pattern
    [secret]. *)
Lemma malformed_pattern_is_ignored_witness :
  @malformed Sample.browser "(" /\
  (forall u, @pattern_matches Sample.browser u "(" = false) /\
  @processTabData Sample.browser
    (with_excludePatterns (["secret"] ++ "(" :: []) CONFIG_initial)
    Demo.github_tab
  = @processTabData Sample.browser
      (with_excludePatterns (["secret"] ++ []) CONFIG_initial)
      Demo.github_tab.
Proof.
  split; [intros u; reflexivity|].
  apply (@malformed_pattern_is_ignored Sample.browser CONFIG_initial
           Demo.github_tab ["secret"] [] "(").
  intros u; reflexivity.
Defined.

(** The dropped event on the disconnected system with one event
    waiting. *)
Lemma disconnected_drops_events_witness :
  connectionState (st Demo.disconnected) = Disconnected /\
  exists y',
    @step Sample.browser (TabsCounted 0 [Demo.github_tab] 1000)
      Demo.disconnected = Some y' /\
    (forall d, heartbeat_counted 1000 [Demo.github_tab] d
                 (st Demo.disconnected)
               = (st Demo.disconnected, None)) /\
    st y' = st Demo.disconnected /\ out y' = out Demo.disconnected /\
    beating y' = beating Demo.disconnected /\
    ensuring y' = ensuring Demo.disconnected /\
    retries y' = retries Demo.disconnected /\
    cycles y' = cycles Demo.disconnected /\
    exists d, take_out 0 (counting Demo.disconnected)
              = Some (d, counting y').
Proof.
  split; [reflexivity|].
  eexists. split; [reflexivity|].
  apply (@disconnected_drops_events Sample.browser Demo.disconnected _ 0
           [Demo.github_tab] 1000); reflexivity.
Defined.

(** C10 on a pull-request tab with both flags off. *)
Lemma redaction_keeps_derived_fields_witness :
  @processTabData Sample.browser (with_tracking false false CONFIG_initial)
    Demo.github_tab = Some Demo.redacted_data /\
  exists tab_url u,
    Tab.url Demo.github_tab = Some tab_url /\
    @URL_parse Sample.browser tab_url = Some u /\
    Data.url Demo.redacted_data
      = (if trackUrls (with_tracking false false CONFIG_initial)
         then tab_url else "[redacted]") /\
    Data.title Demo.redacted_data
      = (if trackTitles (with_tracking false false CONFIG_initial)
         then JS.or_string (Tab.title Demo.github_tab) ""
         else "[redacted]") /\
    Data.domain Demo.redacted_data = URL.hostname u /\
    Data.path Demo.redacted_data = URL.pathname u /\
    Data.protocol Demo.redacted_data = JS.remove_first ":" (URL.protocol u) /\
    Data.category Demo.redacted_data
      = categorizeDomain (URL.hostname u) (URL.pathname u) /\
    forall urls titles, exists d',
      @processTabData Sample.browser
        (with_tracking urls titles (with_tracking false false CONFIG_initial))
        Demo.github_tab = Some d' /\
      Data.url d' = (if urls then tab_url else "[redacted]") /\
      Data.title d' = (if titles
                       then JS.or_string (Tab.title Demo.github_tab) ""
                       else "[redacted]") /\
      Data.domain d' = Data.domain Demo.redacted_data /\
      Data.path d' = Data.path Demo.redacted_data /\
      Data.protocol d' = Data.protocol Demo.redacted_data /\
      Data.category d' = Data.category Demo.redacted_data.
Proof.
  split; [reflexivity|].
  apply (@redaction_keeps_derived_fields Sample.browser
           (with_tracking false false CONFIG_initial) Demo.github_tab
           Demo.redacted_data).
  reflexivity.
Defined.

(** * Further properties of the code *)

(** ** More on strings *)

Lemma lower_ascii_idem (c : ascii) :
  JS.lower_ascii (JS.lower_ascii c) = JS.lower_ascii c.
Proof. destruct c as [[] [] [] [] [] [] [] []]; reflexivity. Qed.

Lemma toLowerCase_idem (s : string) :
  JS.toLowerCase (JS.toLowerCase s) = JS.toLowerCase s.
Proof.
  induction s as [|c s IH]; simpl; [reflexivity|].
  rewrite lower_ascii_idem, IH. reflexivity.
Qed.

Lemma startsWith_includes (s t : string) :
  JS.startsWith s t = true -> JS.includes s t = true.
Proof. intros H. destruct s; simpl; rewrite H; reflexivity. Qed.

Lemma includes_empty (s : string) : JS.includes s "" = true.
Proof. apply startsWith_includes, startsWith_empty. Qed.

Lemma includes_tail (a : ascii) (s t : string) :
  JS.includes s (String a t) = true -> JS.includes s t = true.
Proof.
  induction s as [|b s IH]; simpl; intros H.
  - discriminate H.
  - apply orb_true_iff in H. apply orb_true_iff. right. destruct H as [H|H].
    + unfold JS.startsWith in H. simpl in H.
      destruct (ascii_dec a b); [|discriminate].
      apply startsWith_includes. exact H.
    + exact (IH H).
Qed.

(** A string that contains [p ++ q] contains [q]. *)
Lemma includes_app_r (p q s : string) :
  JS.includes s (p ++ q) = true -> JS.includes s q = true.
Proof.
  induction p as [|a p IH]; simpl; intros H; [exact H|].
  apply IH. exact (includes_tail a s _ H).
Qed.

Ltac split_chain domain path :=
  repeat match goal with
         | |- context [JS.includes domain ?k] =>
             let E := fresh "E" in
             destruct (JS.includes domain k) eqn:E; simpl;
             try discriminate
         | |- context [JS.includes path ?k] =>
             destruct (JS.includes path k); simpl; try discriminate
         end.

(** ** More on the categorizers *)

(** X1.  Both categorizers ignore the case of the hostname: the hostname
    and its lower-cased form get the same label. *)
Theorem categorizers_ignore_case (hostname path : string) :
  categorizeDomain (JS.toLowerCase hostname) path
    = categorizeDomain hostname path /\
  Popup.categorizeUrl (JS.toLowerCase hostname) path
    = Popup.categorizeUrl hostname path.
Proof.
  unfold categorizeDomain, Popup.categorizeUrl.
  rewrite toLowerCase_idem. split; reflexivity.
Qed.

(** X2.  None of the four labels of the Google Workspace entry
    ([docs.google.com]) is ever returned by [categorizeDomain]: a
    hostname that contains [docs.google.com] contains [docs.] and stops
    at the documentation rule or before. *)
Theorem google_workspace_labels_unreachable (hostname path : string) :
  categorizeDomain hostname path <> Some "Work/Documentation/Writing" /\
  categorizeDomain hostname path <> Some "Work/Data/Spreadsheets" /\
  categorizeDomain hostname path <> Some "Work/Presentation" /\
  categorizeDomain hostname path <> Some "Work/Documentation".
Proof.
  unfold categorizeDomain.
  set (domain := JS.toLowerCase hostname).
  pose proof (includes_app "docs." "google.com" domain) as Hdocs.
  change ("docs." ++ "google.com") with "docs.google.com" in Hdocs.
  split_chain domain path;
    try (repeat split; discriminate);
    specialize (Hdocs eq_refl); discriminate.
Qed.

(** X3.  A hostname that contains [netflix.com] is never labelled
    [Personal/Entertainment]: it contains [x.com], and the social media
    rule stands before the entertainment rule. *)
Theorem netflix_is_not_entertainment (hostname path : string) :
  JS.includes (JS.toLowerCase hostname) "netflix.com" = true ->
  categorizeDomain hostname path <> Some "Personal/Entertainment" /\
  categorizeDomain hostname path <> None.
Proof.
  unfold categorizeDomain.
  set (domain := JS.toLowerCase hostname). intros H.
  pose proof (includes_app_r "netfli" "x.com" domain H) as Hx.
  split_chain domain path;
    try (split; discriminate); congruence.
Qed.

(** X4.  The entry [linkedin.com/learning] of the learning rule is never
    the one that decides: a hostname that contains it contains
    [linkedin.com], and is labelled by the social media rule or by an
    earlier one, never [Research/Learning]. *)
Theorem linkedin_learning_is_not_learning (hostname path : string) :
  JS.includes (JS.toLowerCase hostname) "linkedin.com/learning" = true ->
  categorizeDomain hostname path <> Some "Research/Learning" /\
  categorizeDomain hostname path <> None.
Proof.
  unfold categorizeDomain.
  set (domain := JS.toLowerCase hostname). intros H.
  pose proof (includes_app "linkedin.com" "/learning" domain H) as Hl.
  split_chain domain path;
    try (split; discriminate); congruence.
Qed.

(** X5.  Whenever the popup's [categorizeUrl] has a label for a page,
    the background's [categorizeDomain] has one too: every hostname
    pattern of the popup is covered by one of the background. *)
Theorem popup_label_implies_background_label (hostname path : string) :
  Popup.categorizeUrl hostname path <> None ->
  categorizeDomain hostname path <> None.
Proof.
  unfold Popup.categorizeUrl, categorizeDomain.
  set (domain := JS.toLowerCase hostname).
  pose proof (includes_app "docs." "google.com" domain) as Hdocs.
  change ("docs." ++ "google.com") with "docs.google.com" in Hdocs.
  intros H. revert H.
  split_chain domain path; intros H; try discriminate; try congruence.
Qed.

(** ** Trimming, cutting and joining *)

Lemma trimStart_cases (s : string) :
  Text.trimStart s = "" \/
  exists c r, Text.trimStart s = String c r /\ Text.is_space c = false.
Proof.
  induction s as [|c s IH]; simpl; [left; reflexivity|].
  destruct (Text.is_space c) eqn:E; [exact IH|].
  right. exists c, s. split; [reflexivity | exact E].
Qed.

Lemma trimEnd_cons (c : ascii) (r : string) :
  Text.is_space c = false ->
  Text.trimEnd (String c r) = String c (Text.trimEnd r).
Proof.
  intros E. simpl. destruct (Text.trimEnd r); [rewrite E|]; reflexivity.
Qed.

Lemma trimEnd_idem (s : string) :
  Text.trimEnd (Text.trimEnd s) = Text.trimEnd s.
Proof.
  induction s as [|c s IH]; simpl; [reflexivity|].
  destruct (Text.trimEnd s) as [|d r] eqn:E.
  - destruct (Text.is_space c) eqn:Ec; simpl; [reflexivity|].
    rewrite Ec. reflexivity.
  - change (Text.trimEnd (String c (String d r))
            = String c (String d r)).
    simpl. simpl in IH. rewrite IH. reflexivity.
Qed.

(** [trim] changes nothing the second time. *)
Lemma trim_idem (s : string) : Text.trim (Text.trim s) = Text.trim s.
Proof.
  unfold Text.trim.
  destruct (trimStart_cases s) as [E | (c & r & E & Hc)]; rewrite E.
  - reflexivity.
  - rewrite (trimEnd_cons c r Hc). simpl Text.trimStart. rewrite Hc.
    rewrite <- (trimEnd_cons c r Hc). apply trimEnd_idem.
Qed.






Lemma includes_char_cons (c d : ascii) (s : string) :
  JS.includes (String d s) (String c "")
  = Ascii.eqb d c || JS.includes s (String c "").
Proof.
  simpl. f_equal. unfold JS.startsWith. simpl.
  destruct (ascii_dec c d) as [->|n].
  - rewrite Ascii.eqb_refl. destruct s; reflexivity.
  - destruct (Ascii.eqb d c) eqn:E; [|reflexivity].
    apply Ascii.eqb_eq in E. congruence.
Qed.

Lemma includes_char_empty (c : ascii) : JS.includes "" (String c "") = false.
Proof. reflexivity. Qed.



(** Cutting a joined list at the separator gives the list back, when no
    entry contains the separator. *)
Lemma split_join (sep : ascii) (l : list string) :
  l <> [] ->
  Forall (fun e => JS.includes e (String sep "") = false) l ->
  JS.split sep (Text.join (String sep "") l) = l.
Proof.
  intros Hne Hall. induction Hall as [|x l Hx Hl IH]; [contradiction|].
  destruct l as [|y r].
  - simpl. apply split_without_sep. exact Hx.
  - change (Text.join (String sep "") (x :: y :: r))
      with (x ++ String sep (Text.join (String sep "") (y :: r))).
    rewrite (split_app_sep sep x _ Hx). f_equal. apply IH. discriminate.
Qed.

Lemma map_fixed {A : Type} (f : A -> A) (l : list A) :
  Forall (fun x => f x = x) l -> map f l = l.
Proof. induction 1; simpl; congruence. Qed.

Lemma filter_all {A : Type} (f : A -> bool) (l : list A) :
  Forall (fun x => f x = true) l -> filter f l = l.
Proof.
  induction 1 as [|x l Hx _ IH]; simpl; [reflexivity|].
  rewrite Hx, IH. reflexivity.
Qed.

Lemma truthy_iff (s : string) : Text.truthy s = true <-> s <> "".
Proof. destruct s; simpl; split; congruence. Qed.

Lemma split_pieces_no_sep (sep : ascii) (s : string) :
  Forall (fun e => JS.includes e (String sep "") = false) (JS.split sep s).
Proof.
  induction s as [|c s IH]; simpl.
  - constructor; [reflexivity | constructor].
  - destruct (Ascii.eqb c sep) eqn:E.
    + constructor; [reflexivity | exact IH].
    + destruct (JS.split sep s) as [|piece rest].
      * constructor; [|constructor].
        rewrite includes_char_cons, E. reflexivity.
      * inversion IH as [|? ? Hp Hr]; subst. constructor; [|exact Hr].
        rewrite includes_char_cons, E, Hp. reflexivity.
Qed.

Lemma trimStart_no_char (c : ascii) (s : string) :
  JS.includes s (String c "") = false ->
  JS.includes (Text.trimStart s) (String c "") = false.
Proof.
  induction s as [|d s IH]; intros H; [exact H|].
  simpl Text.trimStart. destruct (Text.is_space d); [|exact H].
  rewrite includes_char_cons in H. apply orb_false_iff in H.
  apply IH. exact (proj2 H).
Qed.

Lemma trimEnd_no_char (c : ascii) (s : string) :
  JS.includes s (String c "") = false ->
  JS.includes (Text.trimEnd s) (String c "") = false.
Proof.
  induction s as [|d s IH]; intros H; [exact H|].
  rewrite includes_char_cons in H. apply orb_false_iff in H.
  destruct H as [Hd Hs]. specialize (IH Hs). simpl Text.trimEnd.
  destruct (Text.trimEnd s) as [|e r].
  - destruct (Text.is_space d); [reflexivity|].
    rewrite includes_char_cons, Hd. reflexivity.
  - rewrite includes_char_cons, Hd, IH. reflexivity.
Qed.

Lemma trim_no_char (c : ascii) (s : string) :
  JS.includes s (String c "") = false ->
  JS.includes (Text.trim s) (String c "") = false.
Proof.
  intros H. apply trimEnd_no_char, trimStart_no_char, H.
Qed.

(** ** The options page: the exclusion boxes *)

Lemma parse_lines_clean (value entry : string) :
  In entry (Options.parse_lines value) ->
  entry <> "" /\ Text.trim entry = entry /\
  JS.includes entry (String Text.newline "") = false.
Proof.
  unfold Options.parse_lines. intros H.
  apply filter_In in H. destruct H as [H Ht].
  apply in_map_iff in H. destruct H as (piece & <- & Hin).
  split; [apply truthy_iff; exact Ht|]. split; [apply trim_idem|].
  apply trim_no_char.
  pose proof (split_pieces_no_sep Text.newline value) as F.
  rewrite Forall_forall in F. exact (F piece Hin).
Qed.

Lemma show_then_parse (entries : list string) :
  Forall (fun e => e <> "" /\ Text.trim e = e /\
                   JS.includes e (String Text.newline "") = false) entries ->
  Options.parse_lines (Options.show_lines entries) = entries.
Proof.
  intros H. unfold Options.parse_lines, Options.show_lines.
  destruct entries as [|x l]; [reflexivity|].
  rewrite split_join.
  - rewrite map_fixed, filter_all; [reflexivity | |].
    + eapply Forall_impl; [|exact H]. intros e (Hne & _ & _).
      apply truthy_iff. exact Hne.
    + eapply Forall_impl; [|exact H]. intros e (_ & Ht & _). exact Ht.
  - discriminate.
  - eapply Forall_impl; [|exact H]. intros e (_ & _ & Hn). exact Hn.
Qed.

(** X6.  Every entry that [saveSettings] reads from an exclusion box is
    non-empty, has no white space at either end and lies on one line. *)
Theorem parse_lines_entries (value entry : string) :
  In entry (Options.parse_lines value) ->
  entry <> "" /\ Text.trim entry = entry /\
  JS.includes entry (String Text.newline "") = false.
Proof.
  unfold Options.parse_lines. intros H.
  apply filter_In in H. destruct H as [H Ht].
  apply in_map_iff in H. destruct H as (piece & <- & Hin).
  split; [apply truthy_iff; exact Ht|]. split; [apply trim_idem|].
  apply trim_no_char.
  pose proof (split_pieces_no_sep Text.newline value) as F.
  rewrite Forall_forall in F. exact (F piece Hin).
Qed.


(** X8.  Saving, loading and saving again gives the same list as saving
    once, whatever was typed into the box. *)
Theorem save_load_save_lines (value : string) :
  Options.parse_lines (Options.show_lines (Options.parse_lines value))
  = Options.parse_lines value.
Proof.
  apply show_then_parse. apply Forall_forall. intros e He.
  exact (parse_lines_clean value e He).
Qed.

(** ** The options page: the client keywords *)







(** X10.  On a line of client keywords everything from the second colon
    on is ignored: the line reads as if it ended there. *)
Theorem keywords_cut_at_second_colon (client keywords rest : string) :
  JS.includes client ":" = false ->
  JS.includes keywords ":" = false ->
  Options.parse_keywords_line (client ++ ":" ++ keywords ++ ":" ++ rest)
  = Options.parse_keywords_line (client ++ ":" ++ keywords).
Proof.
  intros Hc Hk. unfold Options.parse_keywords_line.
  change (client ++ ":" ++ keywords ++ ":" ++ rest)
    with (client ++ String ":" (keywords ++ String ":" rest)).
  change (client ++ ":" ++ keywords) with (client ++ String ":" keywords).
  rewrite !(split_app_sep ":" client _ Hc).
  rewrite (split_app_sep ":" keywords _ Hk).
  rewrite (split_without_sep ":" keywords Hk).
  reflexivity.
Qed.

(** X11.  A client without keywords does not survive: the line that
    [loadSettings] writes for it is skipped by [saveSettings]. *)
Theorem client_without_keywords_is_dropped (client : string) :
  JS.includes client ":" = false ->
  Options.parse_keywords_line (Options.show_keywords_line client []) = None.
Proof.
  intros Hc. unfold Options.parse_keywords_line, Options.show_keywords_line.
  change (client ++ ": " ++ Text.join ", " [])
    with (client ++ String ":" " ").
  rewrite (split_app_sep ":" client _ Hc).
  cbn. rewrite andb_false_r. reflexivity.
Qed.

(** ** The popup: the line under the title *)

Lemma length_app (a b : string) :
  String.length (a ++ b) = String.length a + String.length b.
Proof. induction a as [|c a IH]; simpl; [reflexivity | rewrite IH; reflexivity]. Qed.

Lemma length_substring_0 (n : nat) (s : string) :
  String.length (String.substring 0 n s) = Nat.min n (String.length s).
Proof.
  revert s. induction n as [|n IH]; intros s.
  - destruct s; reflexivity.
  - destruct s as [|c s]; simpl; [reflexivity|]. rewrite IH. reflexivity.
Qed.

Lemma substring_0_all (n : nat) (s : string) :
  String.length s <= n -> String.substring 0 n s = s.
Proof.
  revert s. induction n as [|n IH]; intros s H.
  - destruct s; [reflexivity | simpl in H; lia].
  - destruct s as [|c s]; simpl; [reflexivity|].
    rewrite IH; [reflexivity | simpl in H; lia].
Qed.

Lemma startsWith_app_l (a b : string) : JS.startsWith (a ++ b) a = true.
Proof.
  unfold JS.startsWith. induction a as [|c a IH]; simpl.
  - destruct b; reflexivity.
  - destruct (ascii_dec c c); [exact IH | contradiction].
Qed.

(** X12.  The line that the popup shows for a page starts with the
    hostname, then has the whole path when the path has at most 30
    characters, else its first 30 characters and three dots: never more
    than 33 characters after the hostname. *)
Theorem pageUrl_text_shape (url : URL.t) :
  JS.startsWith (Popup.pageUrl_text url) (URL.hostname url) = true /\
  String.length (Popup.pageUrl_text url)
    = String.length (URL.hostname url)
      + (if Nat.leb (String.length (URL.pathname url)) 30
         then String.length (URL.pathname url) else 33) /\
  (if Nat.leb (String.length (URL.pathname url)) 30
   then Popup.pageUrl_text url = URL.hostname url ++ URL.pathname url
   else Popup.pageUrl_text url
        = URL.hostname url ++ String.substring 0 30 (URL.pathname url) ++ "...").
Proof.
  unfold Popup.pageUrl_text.
  split; [apply startsWith_app_l|].
  rewrite !length_app, length_substring_0.
  destruct (Nat.leb (String.length (URL.pathname url)) 30) eqn:E.
  - apply Nat.leb_le in E.
    assert (L : Nat.ltb 30 (String.length (URL.pathname url)) = false)
      by (apply Nat.ltb_ge; exact E).
    rewrite L, (substring_0_all 30 _ E). simpl String.length. split; [lia|].
    f_equal. clear. induction (URL.pathname url); simpl; congruence.
  - apply Nat.leb_gt in E.
    assert (L : Nat.ltb 30 (String.length (URL.pathname url)) = true)
      by (apply Nat.ltb_lt; exact E).
    rewrite L. simpl String.length. split; [lia | reflexivity].
Qed.

(** ** More on the privacy filter *)

Lemma existsb_false_In {A : Type} (f : A -> bool) (l : list A) (x : A) :
  existsb f l = false -> In x l -> f x = false.
Proof.
  intros H Hin. destruct (f x) eqn:E; [|reflexivity].
  rewrite <- H. symmetry. apply existsb_exists. exists x. split; assumption.
Qed.

Section Accepted.

Context {host : Host}.

(** X13.  When a cycle builds event data, the active tab has passed every
    check: it is the first tab of the query, its URL is there, is not a
    browser page and parses; it is not incognito unless incognito
    tracking is on; its hostname contains no excluded domain and no
    exclusion pattern matches its URL.  The data carries that hostname
    and a tab count of zero, and the cycle has changed [currentTab] and
    nothing else. *)
Theorem accepted_cycle_passed_every_check (tabs : list Tab.t) (s s' : State)
    (d : Data.t) :
  heartbeat tabs s = (s', Some d) ->
  exists tab rest tab_url u,
    tabs = tab :: rest /\ Tab.url tab = Some tab_url /\
    internal_page (Some tab_url) = false /\
    Tab.incognito tab && negb (incognitoTracking (CONFIG s)) = false /\
    URL_parse tab_url = Some u /\
    (forall e, In e (excludeDomains (CONFIG s)) ->
               JS.includes (URL.hostname u) e = false) /\
    (forall p, In p (excludePatterns (CONFIG s)) ->
               RegExp_test p tab_url <> Some true) /\
    Data.domain d = URL.hostname u /\ Data.tabCount d = 0 /\
    s' = with_currentTab (Some tab) s.
Proof.
  unfold heartbeat. intros H.
  destruct tabs as [|tab rest]; [discriminate|].
  simpl getCurrentTabData in H.
  destruct (Tab.incognito tab && negb (incognitoTracking (CONFIG s))) eqn:Ei;
    [discriminate|].
  destruct (internal_page (Tab.url tab)) eqn:Ep; [discriminate|].
  destruct (processTabData (CONFIG s) tab) as [d0|] eqn:P; [|discriminate].
  inversion H; subst; clear H.
  unfold processTabData in P.
  destruct (Tab.url tab) as [[|ch r]|] eqn:Eu; try discriminate.
  destruct (URL_parse (String ch r)) as [u|] eqn:Eparse; [|discriminate].
  destruct (existsb _ (excludeDomains (CONFIG s))) eqn:Ed; [discriminate|].
  destruct (existsb _ (excludePatterns (CONFIG s))) eqn:Ex; [discriminate|].
  inversion P; subst; clear P.
  exists tab, rest, (String ch r), u.
  repeat (split; [first [reflexivity | assumption]|]).
  split.
  { intros e He. exact (existsb_false_In _ _ e Ed He). }
  split.
  { intros p Hp Hm.
    pose proof (existsb_false_In _ _ p Ex Hp) as F.
    unfold pattern_matches in F. rewrite Hm in F. discriminate. }
  repeat split.
Qed.

(** X14.  With the empty string among the excluded domains no tab is
    ever accepted: every hostname contains it. *)
Theorem empty_exclusion_blocks_every_tab (c : Config) (tab : Tab.t) :
  In "" (excludeDomains c) -> processTabData c tab = None.
Proof.
  intros H.
  destruct (Tab.url tab) as [tab_url|] eqn:Eu.
  - destruct (URL_parse tab_url) as [u|] eqn:Ep.
    + apply (excluded_hostname_rejected c tab tab_url u "" Eu Ep H).
      apply includes_empty.
    + unfold processTabData. rewrite Eu.
      destruct tab_url; [reflexivity|]. rewrite Ep. reflexivity.
  - unfold processTabData. rewrite Eu. reflexivity.
Qed.

End Accepted.

(** X15.  Settings saved from the options page leave the background
    script with exclusion lists whose entries are non-empty, trimmed and
    on one line: the entry that blocks every tab cannot get in this
    way. *)
Theorem saved_exclusions_are_clean (f : Form.t) (y : System) (e : string) :
  In e (excludeDomains
          (CONFIG (st (onMessage (SaveSettings (Options.settings f)) y)))) \/
  In e (excludePatterns
          (CONFIG (st (onMessage (SaveSettings (Options.settings f)) y)))) ->
  e <> "" /\ Text.trim e = e /\
  JS.includes e (String Text.newline "") = false.
Proof.
  simpl. intros [H|H]; exact (parse_lines_clean _ e H).
Qed.

(** ** The bucket's name when the server does not tell its hostname *)

(** X16.  When the info request fails, or its answer has no hostname or
    an empty one, the bucket is [aw-watcher-web-enhanced_unknown] and the
    bucket request names the hostname [unknown]. *)
Theorem unknown_hostname_bucket (r : InfoResult) (s : State) :
  r = InfoFailed \/ r = Info None \/ r = Info (Some "") ->
  createBucket (init_bucketId r s)
  = (init_bucketId r s,
     Some (PostBucket (serverUrl (CONFIG s)) "aw-watcher-web-enhanced_unknown"
             {| client := "aw-watcher-web-enhanced";
                type := "web.tab.current";
                hostname := Some "unknown" |})).
Proof. intros [->|[->| ->]]; reflexivity. Qed.

(** ** More on the transition system *)

Lemma call_createBucket_keeps (who : Origin) (y : System) :
  CONFIG (st (call_createBucket who y)) = CONFIG (st y) /\
  filter is_heartbeat_post (out (call_createBucket who y))
    = filter is_heartbeat_post (out y) /\
  beating (call_createBucket who y) = beating y /\
  phase (call_createBucket who y) = phase y.
Proof.
  unfold call_createBucket, createBucket.
  destruct (bucketId (CONFIG (st y))); simpl.
  - repeat split.
  - destruct who; simpl; repeat split.
Qed.

Lemma take_out_nth {A : Type} (i : nat) (l rest : list A) (x : A) :
  take_out i l = Some (x, rest) -> nth_error l i = Some x.
Proof.
  revert i rest. induction l as [|a l IH]; intros i rest H.
  - destruct i; discriminate.
  - destruct i as [|j]; simpl in *.
    + inversion H; reflexivity.
    + destruct (take_out j l) as [[z r]|] eqn:E; [|discriminate].
      inversion H; subst. exact (IH j r E).
Qed.

Lemma take_out_last {A : Type} (l : list A) (x : A) :
  take_out (List.length l) (l ++ [x]) = Some (x, l).
Proof.
  induction l as [|a l IH]; simpl; [reflexivity|]. rewrite IH. reflexivity.
Qed.

Lemma take_out_filter {A : Type} (f : A -> bool) (i : nat) (l rest : list A)
    (x : A) :
  take_out i l = Some (x, rest) ->
  List.length (filter f l)
  = (if f x then 1 else 0) + List.length (filter f rest).
Proof.
  revert i rest. induction l as [|a l IH]; intros i rest H.
  - destruct i; discriminate.
  - destruct i as [|j]; simpl in H.
    + inversion H; subst. simpl. destruct (f x); reflexivity.
    + destruct (take_out j l) as [[z r]|] eqn:E; [|discriminate].
      inversion H; subst. simpl.
      destruct (f a); simpl; rewrite (IH j r E); destruct (f x); simpl; lia.
Qed.

Section Invariants.

Context {host : Host}.

(** One task leaves [CONFIG.enabled] off and sends no heartbeat, unless
    it is one that turns it on. *)
Lemma disabled_step (e : Event) (y y' : System) :
  enabled (CONFIG (st y)) = false ->
  enabling e = false ->
  step e y = Some y' ->
  enabled (CONFIG (st y')) = false /\ heartbeat_posts y' = heartbeat_posts y.
Proof.
  intros Hy He Hs. unfold heartbeat_posts.
  destruct e; simpl in Hs.
  - destruct (phase y); inversion Hs; subst; simpl. simpl in He.
    rewrite Hy. destruct (Settings.enabled items) as [[]|];
      [discriminate | |]; split; reflexivity.
  - destruct (phase y); inversion Hs; subst.
    match goal with
    | |- context [call_createBucket ?w ?z] =>
        destruct (call_createBucket_keeps w z) as (A & B & _)
    end.
    rewrite A, B. simpl. split; [exact Hy | reflexivity].
  - inversion Hs; subst. destruct (String.eqb name "heartbeat");
      split; first [exact Hy | reflexivity].
  - inversion Hs; subst. split; [exact Hy | reflexivity].
  - inversion Hs; subst. unfold handleTabUpdated.
    destruct (negb (JS.falsy changed_url) || negb (JS.falsy changed_title));
      [destruct (Tab.active tab)|]; split; first [exact Hy | reflexivity].
  - inversion Hs; subst. unfold handleWindowFocusChanged.
    destruct (negb (windowId =? WINDOW_ID_NONE)%Z);
      split; first [exact Hy | reflexivity].
  - destruct (cycles y); [discriminate|].
    unfold heartbeat in Hs.
    destruct (getCurrentTabData (CONFIG (st y)) tabs) as [tab|];
      [destruct (processTabData (CONFIG (st y)) tab)|];
      inversion Hs; subst; simpl; split; first [exact Hy | reflexivity].
  - destruct (take_out i (counting y)) as [[d rest]|]; [|discriminate].
    unfold heartbeat_counted, sendHeartbeat in Hs. rewrite Hy in Hs.
    simpl in Hs. inversion Hs; subst; simpl.
    split; [exact Hy | reflexivity].
  - destruct (beating y); [discriminate|].
    destruct r as [|status]; simpl in Hs;
      [|destruct (response_ok status)];
      inversion Hs; subst; simpl; split; first [exact Hy | reflexivity].
  - destruct (retries y); [discriminate|]. inversion Hs; subst.
    match goal with
    | |- context [call_createBucket ?w ?z] =>
        destruct (call_createBucket_keeps w z) as (A & B & _)
    end.
    rewrite A, B. simpl. split; [exact Hy | reflexivity].
  - destruct (take_out i (ensuring y)) as [[who rest]|]; [|discriminate].
    rewrite createBucket_resolved_flag in Hs.
    inversion Hs; subst. destruct who; simpl;
      split; first [exact Hy | reflexivity].
  - inversion Hs; subst. destruct m as [|b| |x| |t]; simpl in *.
    + split; [exact Hy | reflexivity].
    + subst b. split; reflexivity.
    + split; [exact Hy | reflexivity].
    + rewrite Hy. destruct (Settings.enabled x) as [[]|];
        [discriminate | |]; split; reflexivity.
    + destruct (call_createBucket_keeps FromTest y) as (A & B & _).
      rewrite A, B. split; [exact Hy | reflexivity].
    + split; [exact Hy | reflexivity].
Qed.

(** X17.  While tracking is disabled no heartbeat is sent: from a state
    with [CONFIG.enabled] off, whatever happens (tabs, timers, answers of
    requests that were in flight, other messages), no heartbeat request
    goes out and [CONFIG.enabled] stays off, until a [setEnabled(true)] or
    settings with [enabled: true] arrive. *)
Theorem disabled_sends_nothing (es : list Event) (y y' : System) :
  enabled (CONFIG (st y)) = false ->
  forallb (fun e => negb (enabling e)) es = true ->
  run es y = Some y' ->
  enabled (CONFIG (st y')) = false /\ heartbeat_posts y' = heartbeat_posts y.
Proof.
  revert y. induction es as [|e es IH]; simpl; intros y Hy Hes Hr.
  - inversion Hr; subst. split; [exact Hy | reflexivity].
  - apply andb_true_iff in Hes. destruct Hes as [He Hes].
    apply negb_true_iff in He.
    destruct (step e y) as [y1|] eqn:Hs; [|discriminate].
    destruct (disabled_step e y y1 Hy He Hs) as [Hy1 Hp].
    destruct (IH y1 Hy1 Hes Hr) as [Hd Hq].
    split; [exact Hd | congruence].
Qed.

End Invariants.

(** ** Settings, storage and the bucket's name along a run *)

Lemma merge_empty_l (x : Settings.t) : merge Settings.empty x = x.
Proof.
  destruct x as [a b c d e f g]. unfold merge. simpl.
  destruct a, b, c, d, e, f, g; reflexivity.
Qed.

Lemma merge_empty_r (x : Settings.t) : merge x Settings.empty = x.
Proof. destruct x; reflexivity. Qed.

Lemma merge_assoc (a b c : Settings.t) :
  merge (merge a b) c = merge a (merge b c).
Proof.
  unfold merge. simpl.
  f_equal;
    match goal with
    | |- context [match ?f c with _ => _ end] => destruct (f c); reflexivity
    end.
Qed.

Lemma assign_empty (c : Config) : assign c Settings.empty = c.
Proof. destruct c; reflexivity. Qed.

Lemma assign_merge (c : Config) (a b : Settings.t) :
  assign (assign c a) b = assign c (merge a b).
Proof.
  unfold assign, merge. simpl.
  f_equal;
    match goal with
    | |- context [or_else (?f b) _] => destruct (f b); reflexivity
    end.
Qed.

Lemma assign_set_bucketId (b : option string) (c : Config) (x : Settings.t) :
  assign (set_bucketId b c) x = set_bucketId b (assign c x).
Proof. reflexivity. Qed.

Lemma set_bucketId_twice (b b' : option string) (c : Config) :
  set_bucketId b (set_bucketId b' c) = set_bucketId b c.
Proof. reflexivity. Qed.

Lemma set_bucketId_same (c : Config) : set_bucketId (bucketId c) c = c.
Proof. destruct c; reflexivity. Qed.

(** The settings written by a list of outputs put in front of another. *)
Lemma written_app (newer older : list Output) :
  written (newer ++ older)%list = merge (written older) (written newer).
Proof.
  induction newer as [|o l IH]; simpl.
  - symmetry. apply merge_empty_r.
  - destruct o; try exact IH. rewrite IH. apply merge_assoc.
Qed.

Lemma call_createBucket_out (who : Origin) (y : System) :
  exists new, out (call_createBucket who y) = (new ++ out y)%list /\
              written new = Settings.empty.
Proof.
  unfold call_createBucket, createBucket.
  destruct (bucketId (CONFIG (st y))); simpl.
  - eexists [_]. split; reflexivity.
  - destruct who; simpl.
    + exists []. split; reflexivity.
    + eexists [_]. split; reflexivity.
    + exists []. split; reflexivity.
Qed.

Section Settings_along_a_run.

Context {host : Host}.

(** What one task does to [CONFIG], to the phase of [init] and to the
    settings storage. *)
Lemma settings_step (e : Event) (y y' : System) :
  step e y = Some y' ->
  exists new,
    out y' = (new ++ out y)%list /\
    match e with
    | SettingsLoaded items =>
        CONFIG (st y') = assign (CONFIG (st y)) items /\
        written new = Settings.empty /\ phase y = Loading /\ phase y' = Naming
    | InfoResolved r =>
        CONFIG (st y')
        = set_bucketId (Some ("aw-watcher-web-enhanced_" ++ getHostname r))
            (CONFIG (st y)) /\
        written new = Settings.empty /\ phase y = Naming /\ phase y' = Named
    | Receive (SetEnabled b) =>
        CONFIG (st y') = assign (CONFIG (st y)) (Settings.only_enabled b) /\
        written new = Settings.only_enabled b /\ phase y' = phase y
    | Receive (SaveSettings x) =>
        CONFIG (st y') = assign (CONFIG (st y)) x /\
        written new = x /\ phase y' = phase y
    | _ =>
        CONFIG (st y') = CONFIG (st y) /\
        written new = Settings.empty /\ phase y' = phase y
    end.
Proof.
  intros Hs. destruct e; simpl in Hs.
  - destruct (phase y) eqn:P; inversion Hs; subst; simpl.
    eexists [_]. repeat split.
  - destruct (phase y) eqn:P; inversion Hs; subst.
    match goal with
    | |- context [call_createBucket ?w ?z] =>
        destruct (call_createBucket_keeps w z) as (A & _ & _ & B);
        destruct (call_createBucket_out w z) as (new & C & D)
    end.
    exists new. rewrite A, B. repeat split; assumption.
  - inversion Hs; subst. exists [].
    destruct (String.eqb name "heartbeat"); repeat split.
  - inversion Hs; subst. exists []. repeat split.
  - inversion Hs; subst. exists []. unfold handleTabUpdated.
    destruct (negb (JS.falsy changed_url) || negb (JS.falsy changed_title));
      [destruct (Tab.active tab)|]; repeat split.
  - inversion Hs; subst. exists []. unfold handleWindowFocusChanged.
    destruct (negb (windowId =? WINDOW_ID_NONE)%Z); repeat split.
  - destruct (cycles y); [discriminate|]. exists [].
    unfold heartbeat in Hs.
    destruct (getCurrentTabData (CONFIG (st y)) tabs) as [tab|];
      [destruct (processTabData (CONFIG (st y)) tab)|];
      inversion Hs; subst; simpl; repeat split.
  - destruct (take_out i (counting y)) as [[d rest]|]; [|discriminate].
    unfold heartbeat_counted, sendHeartbeat in Hs.
    destruct (negb (enabled (CONFIG (st y))) || negb (isConnected (st y)));
      inversion Hs; subst; simpl.
    + exists []. repeat split.
    + eexists [_]. repeat split.
  - destruct (beating y); [discriminate|]. exists [].
    destruct r as [|status]; simpl in Hs;
      [|destruct (response_ok status)];
      inversion Hs; subst; simpl; repeat split.
  - destruct (retries y); [discriminate|]. inversion Hs; subst.
    match goal with
    | |- context [call_createBucket ?w ?z] =>
        destruct (call_createBucket_keeps w z) as (A & _ & _ & B);
        destruct (call_createBucket_out w z) as (new & C & D)
    end.
    exists new. rewrite A, B. repeat split; assumption.
  - destruct (take_out i (ensuring y)) as [[who rest]|]; [|discriminate].
    rewrite createBucket_resolved_flag in Hs.
    inversion Hs; subst. destruct who; simpl.
    + exists []. repeat split.
    + eexists [_]. repeat split.
    + exists []. repeat split.
  - inversion Hs; subst. destruct m as [|b| |x| |t]; simpl.
    + eexists [_]. repeat split.
    + eexists [_; _]. destruct b; repeat split.
    + eexists [_]. repeat split.
    + eexists [_; _]. repeat split. simpl. apply merge_empty_l.
    + destruct (call_createBucket_keeps FromTest y) as (A & _ & _ & B).
      destruct (call_createBucket_out FromTest y) as (new & C & D).
      exists new. rewrite A, B. repeat split; assumption.
    + eexists [_]. repeat split.
Qed.

End Settings_along_a_run.

Section Runs.

Context {host : Host}.

Lemma named_step (e : Event) (y y' : System) :
  step e y = Some y' -> phase y = Named ->
  bucketId (CONFIG (st y')) = bucketId (CONFIG (st y)) /\ phase y' = Named.
Proof.
  intros Hs P. destruct (settings_step e y y' Hs) as (new & _ & H).
  destruct e; try destruct m; simpl in H;
    try (destruct H as (A & _ & B); rewrite A, B; split; [reflexivity | exact P]);
    destruct H as (_ & _ & B & _); congruence.
Qed.

(** X18.  Once [init] has named the bucket, nothing renames it: after any
    sequence of tasks [CONFIG.bucketId] is what it was, also after
    settings are saved. *)
Theorem bucket_identity_is_stable (es : list Event) (y y' : System) :
  phase y = Named ->
  run es y = Some y' ->
  bucketId (CONFIG (st y')) = bucketId (CONFIG (st y)) /\ phase y' = Named.
Proof.
  revert y. induction es as [|e es IH]; simpl; intros y P Hr.
  - inversion Hr; subst. split; [reflexivity | exact P].
  - destruct (step e y) as [y1|] eqn:Hs; [|discriminate].
    destruct (named_step e y y1 Hs P) as [A B].
    destruct (IH y1 B Hr) as [C D]. split; [congruence | exact D].
Qed.

Lemma persisted_step (e : Event) (y y' : System) :
  step e y = Some y' -> phase y <> Loading ->
  phase y' <> Loading /\
  exists new,
    out y' = (new ++ out y)%list /\
    CONFIG (st y')
    = set_bucketId (bucketId (CONFIG (st y')))
        (assign (CONFIG (st y)) (written new)).
Proof.
  intros Hs P. destruct (settings_step e y y' Hs) as (new & O & H).
  assert (K : forall c c' : Config,
             c' = c -> c' = set_bucketId (bucketId c') (assign c Settings.empty)).
  { intros c c' ->. rewrite assign_empty, set_bucketId_same. reflexivity. }
  assert (L : forall (c c' : Config) (x : Settings.t),
             c' = assign c x -> c' = set_bucketId (bucketId c') (assign c x)).
  { intros c c' x ->. rewrite set_bucketId_same. reflexivity. }
  destruct e; try destruct m; simpl in H;
    try (destruct H as (A & W & B); split; [congruence|];
         exists new; split; [exact O|]; rewrite W;
         first [apply K; exact A | apply L; exact A]).
  - destruct H as (_ & _ & B & _). contradiction.
  - destruct H as (A & W & _ & B). split; [congruence|].
    exists new. split; [exact O|]. rewrite W, assign_empty, A. reflexivity.
Qed.

(** X19.  Every setting in force has been written to the settings
    storage: after any sequence of tasks that starts once the stored
    settings are loaded, [CONFIG] is the [CONFIG] of the start with the
    keys written since then put over it, in the order of the writes; only
    the bucket's name can differ. *)
Theorem settings_in_force_are_stored (es : list Event) (y y' : System) :
  phase y <> Loading ->
  run es y = Some y' ->
  exists new,
    out y' = (new ++ out y)%list /\
    CONFIG (st y')
    = set_bucketId (bucketId (CONFIG (st y')))
        (assign (CONFIG (st y)) (written new)).
Proof.
  revert y. induction es as [|e es IH]; simpl; intros y P Hr.
  - inversion Hr; subst. exists []. split; [reflexivity|].
    simpl. rewrite assign_empty, set_bucketId_same. reflexivity.
  - destruct (step e y) as [y1|] eqn:Hs; [|discriminate].
    destruct (persisted_step e y y1 Hs P) as (P1 & new1 & O1 & C1).
    destruct (IH y1 P1 Hr) as (new2 & O2 & C2).
    exists (new2 ++ new1)%list. split.
    + rewrite O2, O1, app_assoc. reflexivity.
    + etransitivity; [exact C2|].
      rewrite C1, assign_set_bucketId, set_bucketId_twice, assign_merge.
      rewrite written_app. reflexivity.
Qed.

(** X20.  A heartbeat request goes out in one case only: an event that
    waited for the tab count gets it while tracking is enabled and the
    flag is on.  It then carries that event with the count, a duration of
    zero, and the server, bucket and pulsetime of [CONFIG].  No other
    task sends one. *)
Theorem heartbeat_only_for_counted_event (e : Event) (y y' : System) :
  step e y = Some y' ->
  heartbeat_posts y' = heartbeat_posts y \/
  exists i tabs now d,
    e = TabsCounted i tabs now /\ nth_error (counting y) i = Some d /\
    enabled (CONFIG (st y)) = true /\ isConnected (st y) = true /\
    heartbeat_posts y'
    = Fetch (PostHeartbeat (serverUrl (CONFIG (st y)))
               (bucketId (CONFIG (st y))) (pulsetime (CONFIG (st y)))
               {| timestamp := now; duration := 0;
                  data := Data.with_tabCount (List.length tabs) d |})
      :: heartbeat_posts y.
Proof.
  intros Hs. unfold heartbeat_posts.
  destruct e; simpl in Hs.
  - left. destruct (phase y); inversion Hs; subst; reflexivity.
  - left. destruct (phase y); inversion Hs; subst.
    match goal with
    | |- context [call_createBucket ?w ?z] =>
        destruct (call_createBucket_keeps w z) as (_ & B & _)
    end.
    exact B.
  - left. inversion Hs; subst.
    destruct (String.eqb name "heartbeat"); reflexivity.
  - left. inversion Hs; subst. reflexivity.
  - left. inversion Hs; subst. unfold handleTabUpdated.
    destruct (negb (JS.falsy changed_url) || negb (JS.falsy changed_title));
      [destruct (Tab.active tab)|]; reflexivity.
  - left. inversion Hs; subst. unfold handleWindowFocusChanged.
    destruct (negb (windowId =? WINDOW_ID_NONE)%Z); reflexivity.
  - left. destruct (cycles y); [discriminate|].
    destruct (heartbeat tabs (st y)). inversion Hs; subst. reflexivity.
  - destruct (take_out i (counting y)) as [[d rest]|] eqn:T; [|discriminate].
    unfold heartbeat_counted, sendHeartbeat in Hs.
    destruct (enabled (CONFIG (st y))) eqn:En;
      [destruct (isConnected (st y)) eqn:Co|];
      simpl in Hs; inversion Hs; subst; simpl;
      try (left; reflexivity).
    right. exists i, tabs, now, d.
    split; [reflexivity|]. split; [exact (take_out_nth _ _ _ _ T)|].
    repeat split.
  - left. destruct (beating y); [discriminate|].
    destruct (sendHeartbeat_resolved r now (st y)).
    inversion Hs; subst. reflexivity.
  - left. destruct (retries y); [discriminate|]. inversion Hs; subst.
    match goal with
    | |- context [call_createBucket ?w ?z] =>
        destruct (call_createBucket_keeps w z) as (_ & B & _)
    end.
    exact B.
  - left. destruct (take_out i (ensuring y)) as [[who rest]|]; [|discriminate].
    inversion Hs; subst. destruct who; reflexivity.
  - left. inversion Hs; subst. destruct m as [|b| |x| |t]; simpl;
      try reflexivity.
    + destruct b; reflexivity.
    + destruct (call_createBucket_keeps FromTest y) as (_ & B & _). exact B.
Qed.

End Runs.

Section Composition.

Context {host : Host}.

Lemma named_run (es : list Event) (y y' : System) :
  phase y = Named ->
  run es y = Some y' ->
  bucketId (CONFIG (st y')) = bucketId (CONFIG (st y)) /\ phase y' = Named.
Proof.
  revert y. induction es as [|e es IH]; simpl; intros y P Hr.
  - inversion Hr; subst. split; [reflexivity | exact P].
  - destruct (step e y) as [y1|] eqn:Hs; [|discriminate].
    destruct (named_step e y y1 Hs P) as [A B].
    destruct (IH y1 B Hr) as [C D]. split; [congruence | exact D].
Qed.

Lemma call_createBucket_retries (who : Origin) (y : System) :
  retries (call_createBucket who y) = retries y.
Proof.
  unfold call_createBucket, createBucket.
  destruct (bucketId (CONFIG (st y))); [reflexivity|].
  destruct who; reflexivity.
Qed.

(** Only the firing of a retry timer takes a retry timer away. *)
Lemma retries_step (e : Event) (y y' : System) :
  step e y = Some y' ->
  match e with RetryTimer => false | _ => true end = true ->
  retries y <= retries y'.
Proof.
  intros Hs He. destruct e; simpl in Hs; try discriminate He.
  - destruct (phase y); inversion Hs; subst; simpl. lia.
  - destruct (phase y); inversion Hs; subst.
    rewrite call_createBucket_retries. simpl. lia.
  - inversion Hs; subst. destruct (String.eqb name "heartbeat"); simpl; lia.
  - inversion Hs; subst. simpl. lia.
  - inversion Hs; subst. unfold handleTabUpdated.
    destruct (negb (JS.falsy changed_url) || negb (JS.falsy changed_title));
      [destruct (Tab.active tab)|]; simpl; lia.
  - inversion Hs; subst. unfold handleWindowFocusChanged.
    destruct (negb (windowId =? WINDOW_ID_NONE)%Z); simpl; lia.
  - destruct (cycles y); [discriminate|].
    destruct (heartbeat tabs (st y)). inversion Hs; subst. simpl. lia.
  - destruct (take_out i (counting y)) as [[d rest]|]; [|discriminate].
    destruct (heartbeat_counted now tabs d (st y)).
    inversion Hs; subst. simpl. lia.
  - destruct (beating y); [discriminate|].
    destruct (sendHeartbeat_resolved r now (st y)) as [s again].
    inversion Hs; subst. simpl. lia.
  - destruct (take_out i (ensuring y)) as [[who rest]|]; [|discriminate].
    inversion Hs; subst. destruct who; simpl; lia.
  - inversion Hs; subst. destruct m as [|b| |x| |t]; simpl; try lia.
    + destruct b; simpl; lia.
    + rewrite call_createBucket_retries. lia.
Qed.

Lemma retries_run (es : list Event) (y y' : System) :
  forallb (fun e => match e with RetryTimer => false | _ => true end) es
    = true ->
  run es y = Some y' ->
  retries y <= retries y'.
Proof.
  revert y. induction es as [|e es IH]; simpl; intros y He Hr.
  - inversion Hr; subst. lia.
  - apply andb_true_iff in He. destruct He as [He Hes].
    destruct (step e y) as [y1|] eqn:Hs; [|discriminate].
    pose proof (retries_step e y y1 Hs He). pose proof (IH y1 Hes Hr). lia.
Qed.

(** X21.  A heartbeat request that fails is followed by a new attempt on
    the bucket: the state goes to Disconnected and one retry timer is
    set; whatever happens before a retry timer fires, when it fires the
    bucket request for the named bucket goes out again, with the
    variables left as they are at that moment. *)
Theorem failed_heartbeat_retries_bucket (y y1 y2 : System) (r : FetchResult)
    (now : Z) (b : string) (es : list Event) :
  match r with Response status => response_ok status | NetworkError => false end
    = false ->
  phase y = Named ->
  bucketId (CONFIG (st y)) = Some b ->
  step (HeartbeatResolved r now) y = Some y1 ->
  forallb (fun e => match e with RetryTimer => false | _ => true end) es
    = true ->
  run es y1 = Some y2 ->
  connectionState (st y1) = Disconnected /\
  retries y1 = S (retries y) /\
  exists y3,
    step RetryTimer y2 = Some y3 /\
    out y3 = (Fetch (PostBucket (serverUrl (CONFIG (st y2))) b
                       {| client := "aw-watcher-web-enhanced";
                          type := "web.tab.current";
                          hostname := nth_error (JS.split "_" b) 1 |})
              :: out y2)%list /\
    ensuring y3 = (ensuring y2 ++ [FromRetry])%list /\
    S (retries y3) = retries y2 /\
    st y3 = st y2.
Proof.
  intros Hr P Hb Hs Hes Hrun.
  destruct (named_step _ _ _ Hs P) as [B1 P1].
  destruct (named_run es y1 y2 P1 Hrun) as [B2 _].
  pose proof (retries_run es y1 y2 Hes Hrun) as R.
  simpl in Hs. destruct (beating y); [discriminate|].
  rewrite (heartbeat_failure_disconnects r now (st y) Hr) in Hs.
  inversion Hs; subst y1; clear Hs. simpl in *.
  split; [reflexivity|]. split; [reflexivity|].
  destruct (retries y2) as [|k] eqn:E; [lia|].
  unfold call_createBucket, createBucket. simpl.
  rewrite B2, Hb.
  eexists. split; [reflexivity|]. simpl. repeat split.
Qed.

Lemma answered_step (e : Event) (y y' : System) :
  step e y = Some y' ->
  answered y' + tests_waiting y'
  = (match e with Receive _ => 1 | _ => 0 end)
    + (answered y + tests_waiting y).
Proof.
  assert (C : forall who z,
             answered (call_createBucket who z)
             + tests_waiting (call_createBucket who z)
             = (match who with FromTest => 1 | _ => 0 end)
               + (answered z + tests_waiting z)).
  { intros who z. unfold answered, tests_waiting, call_createBucket, createBucket.
    destruct (bucketId (CONFIG (st z))); simpl.
    - rewrite filter_app, List.length_app. destruct who; simpl; lia.
    - destruct who; simpl; lia. }
  intros Hs. destruct e; simpl in Hs.
  - destruct (phase y); inversion Hs; subst; reflexivity.
  - destruct (phase y); inversion Hs; subst. rewrite C. reflexivity.
  - inversion Hs; subst. destruct (String.eqb name "heartbeat"); reflexivity.
  - inversion Hs; subst. reflexivity.
  - inversion Hs; subst. unfold handleTabUpdated.
    destruct (negb (JS.falsy changed_url) || negb (JS.falsy changed_title));
      [destruct (Tab.active tab)|]; reflexivity.
  - inversion Hs; subst. unfold handleWindowFocusChanged.
    destruct (negb (windowId =? WINDOW_ID_NONE)%Z); reflexivity.
  - destruct (cycles y); [discriminate|].
    destruct (heartbeat tabs (st y)). inversion Hs; subst. reflexivity.
  - destruct (take_out i (counting y)) as [[d rest]|]; [|discriminate].
    destruct (heartbeat_counted now tabs d (st y)) as [s [req|]];
      inversion Hs; subst; reflexivity.
  - destruct (beating y); [discriminate|].
    destruct (sendHeartbeat_resolved r now (st y)).
    inversion Hs; subst. reflexivity.
  - destruct (retries y); [discriminate|]. inversion Hs; subst.
    rewrite C. reflexivity.
  - destruct (take_out i (ensuring y)) as [[who rest]|] eqn:T; [|discriminate].
    inversion Hs; subst. unfold answered, tests_waiting.
    rewrite (take_out_filter _ _ _ _ _ T).
    destruct who; simpl; lia.
  - inversion Hs; subst. destruct m as [|b| |x| |t]; simpl;
      try reflexivity.
    + destruct b; reflexivity.
    + rewrite C. reflexivity.
Qed.

(** X22.  No message is answered twice or left without an answer: after
    any sequence of tasks, the answers given plus the [testConnection]
    calls still waiting for their bucket request have grown by the
    number of messages received. *)
Theorem every_message_is_answered_once (es : list Event) (y y' : System) :
  run es y = Some y' ->
  answered y' + tests_waiting y'
  = List.length
      (filter (fun e => match e with Receive _ => true | _ => false end) es)
    + (answered y + tests_waiting y).
Proof.
  revert y. induction es as [|e es IH]; simpl; intros y Hr.
  - inversion Hr; subst. reflexivity.
  - destruct (step e y) as [y1|] eqn:Hs; [|discriminate].
    rewrite (IH y1 Hr), (answered_step e y y1 Hs).
    destruct e; simpl; lia.
Qed.

(** X23.  Connected and enabled, a cycle that builds event data ends in
    one heartbeat request once the tabs are counted: the request carries
    that data with the number of tabs, and one more request is in
    flight. *)
Theorem accepted_cycle_is_dispatched (y : System) (tabs all : list Tab.t)
    (now : Z) (s' : State) (d : Data.t) :
  cycles y <> 0 ->
  enabled (CONFIG (st y)) = true ->
  isConnected (st y) = true ->
  heartbeat tabs (st y) = (s', Some d) ->
  exists y',
    run [ActiveTabQueried tabs; TabsCounted (List.length (counting y)) all now]
      y = Some y' /\
    heartbeat_posts y'
    = Fetch (PostHeartbeat (serverUrl (CONFIG (st y)))
               (bucketId (CONFIG (st y))) (pulsetime (CONFIG (st y)))
               {| timestamp := now; duration := 0;
                  data := Data.with_tabCount (List.length all) d |})
      :: heartbeat_posts y /\
    beating y' = S (beating y) /\ counting y' = counting y /\
    st y' = s'.
Proof.
  intros Hc He Hi Hh.
  assert (K : CONFIG s' = CONFIG (st y) /\ isConnected s' = isConnected (st y)).
  { unfold heartbeat in Hh.
    destruct (getCurrentTabData (CONFIG (st y)) tabs) as [tab|];
      [|discriminate].
    destruct (processTabData (CONFIG (st y)) tab); [|discriminate].
    inversion Hh; subst. split; reflexivity. }
  destruct K as [Kc Ki].
  simpl. destruct (cycles y) as [|n]; [contradiction|].
  rewrite Hh. cbn [opt_list st counting].
  rewrite take_out_last.
  unfold heartbeat_counted, sendHeartbeat. rewrite Kc, Ki, He, Hi. simpl.
  eexists. split; [reflexivity|]. unfold heartbeat_posts. simpl.
  repeat split.
Qed.

End Composition.

(** ** The further properties on concrete inputs *)

(** X3 on [www.netflix.com]. *)
Lemma netflix_is_not_entertainment_witness :
  JS.includes (JS.toLowerCase "www.netflix.com") "netflix.com" = true /\
  categorizeDomain "www.netflix.com" "/browse" <> Some "Personal/Entertainment" /\
  categorizeDomain "www.netflix.com" "/browse" <> None.
Proof.
  split; [reflexivity|].
  apply (netflix_is_not_entertainment "www.netflix.com" "/browse").
  reflexivity.
Defined.

(** X4 on a name that contains [linkedin.com/learning]. *)
Lemma linkedin_learning_is_not_learning_witness :
  JS.includes (JS.toLowerCase "www.linkedin.com/learning")
    "linkedin.com/learning" = true /\
  categorizeDomain "www.linkedin.com/learning" "/" <> Some "Research/Learning" /\
  categorizeDomain "www.linkedin.com/learning" "/" <> None.
Proof.
  split; [reflexivity|].
  apply (linkedin_learning_is_not_learning "www.linkedin.com/learning" "/").
  reflexivity.
Defined.

(** X5 on a Google document. *)
Lemma popup_label_implies_background_label_witness :
  Popup.categorizeUrl "docs.google.com" "/document/d/1" <> None /\
  categorizeDomain "docs.google.com" "/document/d/1" <> None.
Proof.
  split; [discriminate|].
  apply (popup_label_implies_background_label "docs.google.com" "/document/d/1").
  discriminate.
Defined.

(** X6 on the exclusion box of [Cases.form]. *)
Lemma parse_lines_entries_witness :
  In "bank.example" (Options.parse_lines (Form.excludeDomains Cases.form)) /\
  "bank.example" <> "" /\ Text.trim "bank.example" = "bank.example" /\
  JS.includes "bank.example" (String Text.newline "") = false.
Proof.
  assert (H : In "bank.example"
                (Options.parse_lines (Form.excludeDomains Cases.form))).
  { right; left; reflexivity. }
  split; [exact H|].
  exact (parse_lines_entries (Form.excludeDomains Cases.form) "bank.example" H).
Defined.



(** X10 on a keyword that is a URL. *)
Lemma keywords_cut_at_second_colon_witness :
  JS.includes "acme" ":" = false /\ JS.includes " acme, https" ":" = false /\
  Options.parse_keywords_line ("acme" ++ ":" ++ " acme, https" ++ ":" ++ "//acme.com")
  = Options.parse_keywords_line ("acme" ++ ":" ++ " acme, https").
Proof.
  split; [reflexivity|]. split; [reflexivity|].
  apply (keywords_cut_at_second_colon "acme" " acme, https" "//acme.com");
    reflexivity.
Defined.

(** X11 on a client called [internal]. *)
Lemma client_without_keywords_is_dropped_witness :
  JS.includes "internal" ":" = false /\
  Options.parse_keywords_line (Options.show_keywords_line "internal" []) = None.
Proof.
  split; [reflexivity|].
  apply (client_without_keywords_is_dropped "internal"). reflexivity.
Defined.

(** X13 on the pull-request tab, connected: the data built has a tab
    count of zero and the hostname of the parsed URL. *)
Lemma accepted_cycle_passed_every_check_witness :
  @heartbeat Sample.browser [Demo.github_tab] (st Demo.connected)
    = (with_currentTab (Some Demo.github_tab) (st Demo.connected),
       Some Demo.github_data) /\
  exists u,
    @URL_parse Sample.browser "https://github.com/user/repo/pull/123" = Some u /\
    Data.domain Demo.github_data = URL.hostname u /\
    Data.tabCount Demo.github_data = 0.
Proof.
  assert (H : @heartbeat Sample.browser [Demo.github_tab] (st Demo.connected)
              = (with_currentTab (Some Demo.github_tab) (st Demo.connected),
                 Some Demo.github_data)) by reflexivity.
  split; [exact H|].
  destruct (@accepted_cycle_passed_every_check Sample.browser _ _ _ _ H)
    as (tab & rest & tab_url & u & E1 & E2 & _ & _ & E5 & _ & _ & E8 & E9 & _).
  exists u. inversion E1; subst tab rest.
  inversion E2; subst tab_url.
  split; [exact E5|]. split; [exact E8 | exact E9].
Defined.

(** X14 on the pull-request tab. *)
Lemma empty_exclusion_blocks_every_tab_witness :
  In "" (excludeDomains Cases.block_all) /\
  @processTabData Sample.browser Cases.block_all Demo.github_tab = None.
Proof.
  assert (H : In "" (excludeDomains Cases.block_all)) by (left; reflexivity).
  split; [exact H|].
  exact (@empty_exclusion_blocks_every_tab Sample.browser Cases.block_all
           Demo.github_tab H).
Defined.

(** X15 on [Cases.form], saved into the initial system. *)
Lemma saved_exclusions_are_clean_witness :
  In "bank.example"
    (excludeDomains
       (CONFIG (st (onMessage (SaveSettings (Options.settings Cases.form))
                      System_initial)))) /\
  "bank.example" <> "" /\ Text.trim "bank.example" = "bank.example" /\
  JS.includes "bank.example" (String Text.newline "") = false.
Proof.
  assert (H : In "bank.example"
                (excludeDomains
                   (CONFIG (st (onMessage
                                  (SaveSettings (Options.settings Cases.form))
                                  System_initial))))).
  { right; left; reflexivity. }
  split; [exact H|].
  exact (saved_exclusions_are_clean Cases.form System_initial "bank.example"
           (or_introl H)).
Defined.

(** X16 for an answer without hostname. *)
Lemma unknown_hostname_bucket_witness :
  createBucket (init_bucketId (Info None) State_initial)
  = (init_bucketId (Info None) State_initial,
     Some (PostBucket (serverUrl (CONFIG State_initial))
             "aw-watcher-web-enhanced_unknown"
             {| client := "aw-watcher-web-enhanced";
                type := "web.tab.current";
                hostname := Some "unknown" |})).
Proof.
  apply (unknown_hostname_bucket (Info None) State_initial).
  right; left; reflexivity.
Defined.

(** X17 on the disabled system, through a whole cycle and a status
    request. *)
Lemma disabled_sends_nothing_witness :
  enabled (CONFIG (st Systems.disabled)) = false /\
  exists y',
    @run Sample.browser
      [ActiveTabQueried [Demo.github_tab];
       TabsCounted 0 [Demo.github_tab] 1000; Receive GetStatus]
      Systems.disabled = Some y' /\
    enabled (CONFIG (st y')) = false /\
    heartbeat_posts y' = heartbeat_posts Systems.disabled.
Proof.
  split; [reflexivity|].
  eexists. split; [reflexivity|].
  apply (@disabled_sends_nothing Sample.browser
           [ActiveTabQueried [Demo.github_tab];
            TabsCounted 0 [Demo.github_tab] 1000; Receive GetStatus]
           Systems.disabled); reflexivity.
Defined.

(** X18 through a save from the options page and a [setEnabled]. *)
Lemma bucket_identity_is_stable_witness :
  phase Demo.connected = Named /\
  exists y',
    @run Sample.browser
      [Receive (SaveSettings (Options.settings Cases.form));
       Receive (SetEnabled false)] Demo.connected = Some y' /\
    bucketId (CONFIG (st y')) = bucketId (CONFIG (st Demo.connected)) /\
    phase y' = Named.
Proof.
  split; [reflexivity|].
  eexists. split; [reflexivity|].
  apply (@bucket_identity_is_stable Sample.browser
           [Receive (SaveSettings (Options.settings Cases.form));
            Receive (SetEnabled false)] Demo.connected); reflexivity.
Defined.

(** X19 through the same two messages. *)
Lemma settings_in_force_are_stored_witness :
  phase Demo.connected <> Loading /\
  exists y',
    @run Sample.browser
      [Receive (SaveSettings (Options.settings Cases.form));
       Receive (SetEnabled false)] Demo.connected = Some y' /\
    exists new,
      out y' = (new ++ out Demo.connected)%list /\
      CONFIG (st y')
      = set_bucketId (bucketId (CONFIG (st y')))
          (assign (CONFIG (st Demo.connected)) (written new)).
Proof.
  split; [discriminate|].
  eexists. split; [reflexivity|].
  apply (@settings_in_force_are_stored Sample.browser
           [Receive (SaveSettings (Options.settings Cases.form));
            Receive (SetEnabled false)] Demo.connected);
    [discriminate | reflexivity].
Defined.

(** X20 on the event that waits in [Systems.waiting]. *)
Lemma heartbeat_only_for_counted_event_witness :
  exists y',
    @step Sample.browser (TabsCounted 0 [Demo.github_tab] 1000)
      Systems.waiting = Some y' /\
    (heartbeat_posts y' = heartbeat_posts Systems.waiting \/
     exists i tabs now d,
       TabsCounted 0 [Demo.github_tab] 1000 = TabsCounted i tabs now /\
       nth_error (counting Systems.waiting) i = Some d /\
       enabled (CONFIG (st Systems.waiting)) = true /\
       isConnected (st Systems.waiting) = true /\
       heartbeat_posts y'
       = Fetch (PostHeartbeat (serverUrl (CONFIG (st Systems.waiting)))
                  (bucketId (CONFIG (st Systems.waiting)))
                  (pulsetime (CONFIG (st Systems.waiting)))
                  {| timestamp := now; duration := 0;
                     data := Data.with_tabCount (List.length tabs) d |})
         :: heartbeat_posts Systems.waiting).
Proof.
  eexists. split; [reflexivity|].
  apply (@heartbeat_only_for_counted_event Sample.browser
           (TabsCounted 0 [Demo.github_tab] 1000) Systems.waiting).
  reflexivity.
Defined.

(** X21 on a network error for the request in flight, with a status
    request before the timer fires. *)
Lemma failed_heartbeat_retries_bucket_witness :
  exists y1 y2,
    @step Sample.browser (HeartbeatResolved NetworkError 2000)
      Systems.inflight = Some y1 /\
    @run Sample.browser [Receive GetStatus; TabActivated] y1 = Some y2 /\
    connectionState (st y1) = Disconnected /\
    retries y1 = S (retries Systems.inflight) /\
    exists y3,
      @step Sample.browser RetryTimer y2 = Some y3 /\
      out y3 = (Fetch (PostBucket (serverUrl (CONFIG (st y2)))
                         "aw-watcher-web-enhanced_laptop"
                         {| client := "aw-watcher-web-enhanced";
                            type := "web.tab.current";
                            hostname :=
                              nth_error
                                (JS.split "_" "aw-watcher-web-enhanced_laptop") 1 |})
                :: out y2)%list /\
      ensuring y3 = (ensuring y2 ++ [FromRetry])%list /\
      S (retries y3) = retries y2 /\
      st y3 = st y2.
Proof.
  do 2 eexists. split; [reflexivity|]. split; [reflexivity|].
  apply (@failed_heartbeat_retries_bucket Sample.browser Systems.inflight _ _
           NetworkError 2000 "aw-watcher-web-enhanced_laptop"
           [Receive GetStatus; TabActivated]); reflexivity.
Defined.

(** X22 through a status request and a connection test that comes
    back. *)
Lemma every_message_is_answered_once_witness :
  exists y',
    @run Sample.browser
      [Receive GetStatus; Receive TestConnection;
       BucketResolved 0 (Response 200)] Demo.connected = Some y' /\
    answered y' + tests_waiting y'
    = List.length
        (filter (fun e => match e with Receive _ => true | _ => false end)
           [Receive GetStatus; Receive TestConnection;
            BucketResolved 0 (Response 200)])
      + (answered Demo.connected + tests_waiting Demo.connected).
Proof.
  eexists. split; [reflexivity|].
  apply (@every_message_is_answered_once Sample.browser
           [Receive GetStatus; Receive TestConnection;
            BucketResolved 0 (Response 200)] Demo.connected).
  reflexivity.
Defined.

(** X23 on the pull-request tab, with two tabs open. *)
Lemma accepted_cycle_is_dispatched_witness :
  cycles Demo.connected <> 0 /\
  enabled (CONFIG (st Demo.connected)) = true /\
  isConnected (st Demo.connected) = true /\
  @heartbeat Sample.browser [Demo.github_tab] (st Demo.connected)
    = (with_currentTab (Some Demo.github_tab) (st Demo.connected),
       Some Demo.github_data) /\
  exists y',
    @run Sample.browser
      [ActiveTabQueried [Demo.github_tab];
       TabsCounted (List.length (counting Demo.connected))
         [Demo.github_tab; Demo.private_tab] 1000]
      Demo.connected = Some y' /\
    heartbeat_posts y'
    = Fetch (PostHeartbeat (serverUrl (CONFIG (st Demo.connected)))
               (bucketId (CONFIG (st Demo.connected)))
               (pulsetime (CONFIG (st Demo.connected)))
               {| timestamp := 1000; duration := 0;
                  data := Data.with_tabCount
                            (List.length [Demo.github_tab; Demo.private_tab])
                            Demo.github_data |})
      :: heartbeat_posts Demo.connected /\
    beating y' = S (beating Demo.connected) /\
    counting y' = counting Demo.connected /\
    st y' = with_currentTab (Some Demo.github_tab) (st Demo.connected).
Proof.
  split; [discriminate|]. split; [reflexivity|]. split; [reflexivity|].
  split; [reflexivity|].
  apply (@accepted_cycle_is_dispatched Sample.browser Demo.connected
           [Demo.github_tab] [Demo.github_tab; Demo.private_tab] 1000);
    first [discriminate | reflexivity].
Defined.

(** ** Disconnected, from a failure to the next bucket that succeeds *)

Section Interval.

Context {host : Host}.

(** A failure of either kind leaves the flag off. *)
Lemma failure_disconnects (e : Event) (y0 y : System) :
  failure e = true -> step e y0 = Some y -> isConnected (st y) = false.
Proof.
  intros F Hs. destruct e; try discriminate F; simpl in Hs, F.
  - destruct (beating y0); [discriminate|].
    apply negb_true_iff in F.
    rewrite (heartbeat_failure_disconnects r now (st y0) F) in Hs.
    inversion Hs; subst. reflexivity.
  - destruct (take_out i (ensuring y0)) as [[who rest]|]; [|discriminate].
    apply negb_true_iff in F.
    rewrite createBucket_resolved_flag, F in Hs.
    inversion Hs; subst. destruct who; reflexivity.
Qed.

(** C4 (as amended).  Whenever the connection state is Disconnected, an
    event that has been produced and reaches [sendHeartbeat] is dropped:
    no request goes out, nothing else is emitted, the variables and the
    pending requests and timers are as before, and the event is taken
    off the list of waiting events, not kept.  After a bucket request or
    a heartbeat request has failed, leaving no heartbeat request in
    flight, the state is Disconnected and stays so, and no heartbeat is
    sent, whatever happens, until a bucket request succeeds. *)
Theorem disconnected_drops_until_bucket_success :
  (forall (y y' : System) (i : nat) (tabs : list Tab.t) (now : Z),
      connectionState (st y) = Disconnected ->
      step (TabsCounted i tabs now) y = Some y' ->
      st y' = st y /\ out y' = out y /\ beating y' = beating y /\
      ensuring y' = ensuring y /\ retries y' = retries y /\
      cycles y' = cycles y /\
      exists d, take_out i (counting y) = Some (d, counting y')) /\
  (forall (e0 : Event) (y0 y : System) (es : list Event) (y' : System),
      failure e0 = true ->
      step e0 y0 = Some y ->
      beating y = 0 ->
      forallb (fun e => negb (bucket_success e)) es = true ->
      run es y = Some y' ->
      connectionState (st y) = Disconnected /\
      connectionState (st y') = Disconnected /\
      heartbeat_posts y' = heartbeat_posts y).
Proof.
  split.
  - intros y y' i tabs now Hd Hs.
    exact (proj2 (disconnected_drops_events y y' i tabs now Hd Hs)).
  - intros e0 y0 y es y' F Hs Hb Hes Hr.
    pose proof (failure_disconnects e0 y0 y F Hs) as Hc.
    split; [apply connectionState_flag; exact Hc|].
    exact (silent_until_bucket_success es y y' (conj Hc Hb) Hes Hr).
Qed.

End Interval.

(** The system [Races.testing] is reached from the connected one. *)
Example testing_is_reached :
  @run Sample.browser
    [ActiveTabQueried [Demo.github_tab];
     TabsCounted 0 [Demo.github_tab] 1000; Receive TestConnection]
    Demo.connected = Some Races.testing.
Proof. reflexivity. Qed.

(** C4 (as stated) fails: in [Races.testing] the bucket request fails
    while a heartbeat request is in flight; the state is Disconnected,
    the heartbeat request then succeeds and turns the flag on, and the
    next cycle sends a heartbeat, with no bucket request having
    succeeded. *)
Lemma late_heartbeat_ends_the_interval :
  failure (BucketResolved 0 NetworkError) = true /\
  forallb (fun e => negb (bucket_success e)) Races.late_success = true /\
  (exists y y',
      @step Sample.browser (BucketResolved 0 NetworkError) Races.testing
        = Some y /\
      connectionState (st y) = Disconnected /\ beating y = 1 /\
      @run Sample.browser Races.late_success y = Some y' /\
      connectionState (st y') = Connected /\
      List.length (heartbeat_posts y) = 1 /\
      List.length (heartbeat_posts y') = 2) /\
  ~ dropped_until_bucket_success.
Proof.
  split; [reflexivity|]. split; [reflexivity|]. split.
  - do 2 eexists. repeat split.
  - intros H.
    destruct (H Sample.browser (BucketResolved 0 NetworkError) Races.testing
                _ Races.late_success _ eq_refl eq_refl eq_refl eq_refl)
      as [D _].
    discriminate D.
Qed.

(** C4 (as amended) on concrete systems: the event that waits in the
    disconnected system is dropped; and after the bucket request of
    [Races.testing_alone] has failed, a whole cycle sends nothing. *)
Lemma disconnected_drops_until_bucket_success_witness :
  (exists y',
      @step Sample.browser (TabsCounted 0 [Demo.github_tab] 1000)
        Demo.disconnected = Some y' /\
      st y' = st Demo.disconnected /\ out y' = out Demo.disconnected /\
      beating y' = beating Demo.disconnected) /\
  (exists y y',
      @step Sample.browser (BucketResolved 0 NetworkError)
        Races.testing_alone = Some y /\
      beating y = 0 /\
      @run Sample.browser Races.next_cycle y = Some y' /\
      connectionState (st y) = Disconnected /\
      connectionState (st y') = Disconnected /\
      heartbeat_posts y' = heartbeat_posts y).
Proof.
  split.
  - eexists. split; [reflexivity|].
    destruct (proj1 (@disconnected_drops_until_bucket_success Sample.browser)
                Demo.disconnected _ 0 [Demo.github_tab] 1000%Z
                eq_refl eq_refl) as (A & B & C & _).
    repeat split; assumption.
  - do 2 eexists. split; [reflexivity|]. split; [reflexivity|].
    split; [reflexivity|].
    exact (proj2 (@disconnected_drops_until_bucket_success Sample.browser)
             (BucketResolved 0 NetworkError) Races.testing_alone _
             Races.next_cycle _ eq_refl eq_refl eq_refl eq_refl eq_refl).
Defined.
